(** * Interview transcript post-processing (danish-stt.py)

    A shallow embedding of the pure core of [danish-stt.py]: the timestamp
    formatters, the pause-based speaker attribution, the content-marker text
    normaliser and the statistics that [main] derives from the recognised
    segments.

    Modelling conventions.
    - A Python [str] is a [string]; each [ascii] stands for the code point
      of the same number (the Latin-1 range, which holds the Danish letters).
    - A Python number (int or float) is an exact rational [Q]; comparisons
      are the boolean comparisons of [Q].  Binary rounding of floats is not
      modelled.
    - A failing Python operation raises; it is modelled by the [outcome]
      error type and its bind.  *)

From Stdlib Require Import ZArith QArith Qround Qminmax.
From Stdlib Require Import List Bool Ascii String DecimalString DecimalN Lia.
Import ListNotations.

Close Scope Q_scope.
Open Scope nat_scope.
Open Scope string_scope.

(** ** Python strings *)

Module PyStr.

(** [str.isspace] on one character, for code points below 256:
    TAB, LF, VT, FF, CR, the separators 28..31, space, NEL and NBSP. *)
Definition is_space (c : ascii) : bool :=
  let n := nat_of_ascii c in
  (((9 <=? n) && (n <=? 13)) || ((28 <=? n) && (n <=? 32))
   || (n =? 133) || (n =? 160))%nat.

(** [s.lstrip()] *)
Fixpoint lstrip (s : string) : string :=
  match s with
  | EmptyString => EmptyString
  | String c s' => if is_space c then lstrip s' else s
  end.

Definition is_empty (s : string) : bool :=
  match s with EmptyString => true | String _ _ => false end.

(** [s.rstrip()]: a whitespace character is dropped when nothing but
    whitespace follows it. *)
Fixpoint rstrip (s : string) : string :=
  match s with
  | EmptyString => EmptyString
  | String c s' =>
      let r := rstrip s' in
      if is_space c && is_empty r then EmptyString else String c r
  end.

(** [s.strip()] *)
Definition strip (s : string) : string := rstrip (lstrip s).

(** [s.replace(old, new)]: the occurrences of [old] are replaced from left
    to right without overlap.  [skip] counts the characters of a matched
    occurrence that are still to be dropped. *)
Fixpoint replace_from (old new : string) (skip : nat) (s : string) : string :=
  match s with
  | EmptyString => if is_empty old then new else EmptyString
  | String c s' =>
      match skip with
      | S k => replace_from old new k s'
      | O =>
          if is_empty old then new ++ String c (replace_from old new 0 s')
          else if prefix old s
               then new ++ replace_from old new (length old - 1) s'
               else String c (replace_from old new 0 s')
      end
  end.

Definition replace (old new s : string) : string := replace_from old new 0 s.

(** [old in s] *)
Fixpoint contains (old s : string) : bool :=
  prefix old s ||
  match s with
  | EmptyString => false
  | String _ s' => contains old s'
  end.

(** [len(s.split())]: the number of maximal runs of non-whitespace.
    [inword] tells whether the previous character belonged to a word. *)
Fixpoint count_words_from (inword : bool) (s : string) : nat :=
  match s with
  | EmptyString => 0
  | String c s' =>
      if is_space c then count_words_from false s'
      else (if inword then 0 else 1) + count_words_from true s'
  end.

Definition count_words (s : string) : nat := count_words_from false s.

End PyStr.

(** ** The text normaliser *)

(** [add_content_markers(text)] *)
Definition add_content_markers (text : string) : string :=
  if (length (PyStr.strip text) <? 3)%nat then "[UNCLEAR]"
  else
    let markers := text in
    let markers := PyStr.replace "..." "[PAUSE]" markers in
    let markers := PyStr.replace "  " " " markers in
    PyStr.strip markers.

(** ** Python numbers and errors *)

Inductive exn : Type :=
| ZeroDivisionError
| ValueError.

Inductive outcome (A : Type) : Type :=
| Ok (a : A)
| Raise (e : exn).

Arguments Ok {A} a.
Arguments Raise {A} e.

Definition bind {A B : Type} (m : outcome A) (k : A -> outcome B) : outcome B :=
  match m with
  | Ok a => k a
  | Raise e => Raise e
  end.

Notation "x <- m ;; k" := (bind m (fun x => k))
  (at level 61, m at next level, right associativity).

Module PyNum.

(** [x < y] *)
Definition ltb (x y : Q) : bool := negb (Qle_bool y x).
(** [x <= y] *)
Definition leb (x y : Q) : bool := Qle_bool x y.

(** [x / y], which raises when [y] is zero *)
Definition truediv (x y : Q) : outcome Q :=
  if Qeq_bool y 0 then Raise ZeroDivisionError else Ok (x / y)%Q.

(** [x // y] for a non-zero literal [y] *)
Definition floordiv (x y : Q) : Q := inject_Z (Qfloor (x / y)).

(** [x % y] for a non-zero literal [y]: the remainder of the floor
    division, which takes the sign of [y] *)
Definition mod_ (x y : Q) : Q := (x - y * floordiv x y)%Q.

(** [int(x)]: truncation toward zero *)
Definition int (x : Q) : Z :=
  if Qle_bool 0 x then Qfloor x else Qceiling x.

(** [sum(l)] *)
Definition sum (l : list Q) : Q := fold_left Qplus l 0%Q.

(** [len(l)] as a number *)
Definition len {A : Type} (l : list A) : Q := inject_Z (Z.of_nat (List.length l)).

(** [max(l)]: the first greatest element; raises on the empty list *)
Definition max (l : list Q) : outcome Q :=
  match l with
  | [] => Raise ValueError
  | x :: xs => Ok (fold_left (fun m y => if ltb m y then y else m) xs x)
  end.

(** [min(l)]: the first least element; raises on the empty list *)
Definition min (l : list Q) : outcome Q :=
  match l with
  | [] => Raise ValueError
  | x :: xs => Ok (fold_left (fun m y => if ltb y m then y else m) xs x)
  end.

(** The integer nearest to [x], ties going to the even one *)
Definition round_half_even (x : Q) : Z :=
  let f := Qfloor x in
  match ((x - inject_Z f) ?= 1 # 2)%Q with
  | Lt => f
  | Gt => (f + 1)%Z
  | Eq => if Z.even f then f else (f + 1)%Z
  end.

(** [round(x, ndigits)] *)
Definition round (x : Q) (ndigits : nat) : Q :=
  let p := inject_Z (10 ^ Z.of_nat ndigits) in
  (inject_Z (round_half_even (x * p)) / p)%Q.

(** The format specification [02d]: decimal digits, a minus sign for a
    negative number, zeros between sign and digits up to width 2 *)
Definition format_02d (n : Z) : string :=
  let digits := NilZero.string_of_uint (N.to_uint (Z.abs_N n)) in
  if (n <? 0)%Z then "-" ++ digits
  else if (length digits <? 2)%nat then "0" ++ digits
  else digits.

End PyNum.

(** ** Timestamp formatting *)

(** [format_timestamp(seconds)] *)
Definition format_timestamp (seconds : Q) : string :=
  let minutes := PyNum.int (PyNum.floordiv seconds 60) in
  let seconds := PyNum.int (PyNum.mod_ seconds 60) in
  PyNum.format_02d minutes ++ ":" ++ PyNum.format_02d seconds.

(** [format_duration(seconds)] *)
Definition format_duration (seconds : Q) : string :=
  let hours := PyNum.int (PyNum.floordiv seconds 3600) in
  let minutes := PyNum.int (PyNum.floordiv (PyNum.mod_ seconds 3600) 60) in
  let seconds := PyNum.int (PyNum.mod_ seconds 60) in
  if (hours >? 0)%Z
  then PyNum.format_02d hours ++ ":" ++ PyNum.format_02d minutes
       ++ ":" ++ PyNum.format_02d seconds
  else PyNum.format_02d minutes ++ ":" ++ PyNum.format_02d seconds.

(** ** Segments *)

(** One recognised segment: the keys ['start'], ['end'], ['text'] and the
    optional key ['avg_logprob'] of a Whisper segment dictionary. *)
Record segment : Type := mkSegment {
  start : Q;
  end_ : Q;
  text : string;
  avg_logprob : option Q
}.

(** [d.get(key, default)] on an optional key *)
Definition get {A : Type} (v : option A) (default : A) : A :=
  match v with
  | Some a => a
  | None => default
  end.

(** [enumerate(l)] *)
Definition enumerate {A : Type} (l : list A) : list (nat * A) :=
  combine (seq 0 (List.length l)) l.

(** ** Speaker attribution *)

(** The local variables of [detect_speaker_changes]. *)
Record attributor : Type := mkAttributor {
  speakers : list string;
  current_speaker : string;
  last_speaker_change_time : Q
}.

Section Attributor.

Variable segments : list segment.
Variables silence_threshold min_speaker_time : Q.

(** The guard of the speaker switch at segment [i >= 1]. *)
Definition switch_guard (st : attributor) (i : nat) (seg : segment) : bool :=
  let prev_end := end_ (nth (i - 1) segments seg) in
  let current_start := start seg in
  let gap := (current_start - prev_end)%Q in
  let time_since_last_change :=
    (current_start - last_speaker_change_time st)%Q in
  PyNum.ltb silence_threshold gap
  && PyNum.ltb min_speaker_time time_since_last_change.

(** One iteration of the loop over [enumerate(segments)]. *)
Definition attributor_body (st : attributor) (ie : nat * segment) : attributor :=
  let (i, seg) := ie in
  if (i =? 0)%nat then
    mkAttributor (speakers st ++ [current_speaker st])
                 (current_speaker st) (last_speaker_change_time st)
  else
    let current_start := start seg in
    let st' :=
      if switch_guard st i seg then
        mkAttributor (speakers st)
          (if String.eqb (current_speaker st) "INTERVIEWER"
           then "PARTICIPANT" else "INTERVIEWER")
          current_start
      else st in
    mkAttributor (speakers st' ++ [current_speaker st'])
                 (current_speaker st') (last_speaker_change_time st').

Definition attributor_init : attributor := mkAttributor [] "INTERVIEWER" 0%Q.

(** The state after the first [k] iterations. *)
Definition attributor_after (k : nat) : attributor :=
  fold_left attributor_body (firstn k (enumerate segments)) attributor_init.

(** [detect_speaker_changes(segments, silence_threshold, min_speaker_time)] *)
Definition detect_speaker_changes : list string :=
  speakers (fold_left attributor_body (enumerate segments) attributor_init).

End Attributor.

(** ** Statistics *)

(** The dictionary returned by [whisper_model.transcribe]: the optional key
    ['duration'] and the key ['segments']. *)
Record transcription : Type := mkTranscription {
  res_duration : option Q;
  res_segments : list segment
}.

(** Truth value of a list: [if l] *)
Definition truthy {A : Type} (l : list A) : bool :=
  match l with
  | [] => false
  | _ :: _ => true
  end.

(** [l[i]] for an index that is in range; [d] is never returned by the
    loops below (see [pauses_index_in_range]). *)
Definition getitem {A : Type} (l : list A) (i : nat) (d : A) : A := nth i l d.

(** [range(a, b)] *)
Definition range (a b : nat) : list nat := seq a (b - a).

(** [get_audio_quality_estimate(result)] *)
Definition get_audio_quality_estimate (result : transcription) : outcome string :=
  let segments := res_segments result in
  if negb (truthy segments) then Ok "Unknown"
  else
    avg_confidence <-
      PyNum.truediv
        (PyNum.sum (map (fun seg => get (avg_logprob seg) (-1)%Q) segments))
        (PyNum.len segments) ;;
    if PyNum.ltb (-1 # 2) avg_confidence then Ok "High"
    else if PyNum.ltb (-1) avg_confidence then Ok "Medium"
    else Ok "Low".

(** [[seg.get('avg_logprob', -2) for seg in segments]] *)
Definition confidences_of (segments : list segment) : list Q :=
  map (fun seg => get (avg_logprob seg) (-2)%Q) segments.

(** One iteration of the pause loop of [main]. *)
Definition pauses_body (segments : list segment) (pauses : list Q) (i : nat)
  : list Q :=
  let d := mkSegment 0 0 "" None in
  let pause_duration :=
    (start (getitem segments i d) - end_ (getitem segments (i - 1) d))%Q in
  if PyNum.ltb 0 pause_duration then pauses ++ [pause_duration] else pauses.

(** The list [pauses] built by [main]. *)
Definition pauses_of (segments : list segment) : list Q :=
  fold_left (pauses_body segments) (range 1 (List.length segments)) [].

Module Metadata.

(** The statistics entries of the dictionary [metadata] of [main]; the
    entries that only repeat the configuration are left out. *)
Record t : Type := mk {
  duration : string;
  audio_quality : string;
  total_segments : nat;
  total_words : nat;
  avg_words_per_segment : Q;
  avg_confidence : Q;
  high_confidence_pct : Q;
  medium_confidence_pct : Q;
  low_confidence_pct : Q;
  avg_segment_length : Q;
  longest_segment : Q;
  shortest_segment : Q;
  total_pauses : nat;
  avg_pause_duration : Q;
  longest_pause : Q;
  total_pause_time : Q;
  speech_vs_pause_ratio : Q
}.

End Metadata.

Definition of_nat (n : nat) : Q := inject_Z (Z.of_nat n).

(** The statistics part of [main]: from the transcription result to the
    dictionary [metadata], in the order in which Python evaluates it. *)
Definition compute_metadata (result : transcription) : outcome Metadata.t :=
  let audio_duration := get (res_duration result) 0%Q in
  let segments := res_segments result in
  (* speaking statistics *)
  let total_words :=
    list_sum (map (fun seg => PyStr.count_words (text seg)) segments) in
  avg_words_per_segment <-
    (if truthy segments
     then PyNum.truediv (of_nat total_words) (PyNum.len segments)
     else Ok 0%Q) ;;
  (* confidence statistics *)
  let confidences := confidences_of segments in
  avg_confidence <-
    (if truthy confidences
     then PyNum.truediv (PyNum.sum confidences) (PyNum.len confidences)
     else Ok (-2)%Q) ;;
  let high_confidence_segments :=
    List.length (filter (fun c => PyNum.ltb (-1 # 2) c) confidences) in
  let medium_confidence_segments :=
    List.length
      (filter (fun c => PyNum.leb (-1) c && PyNum.leb c (-1 # 2)) confidences) in
  let low_confidence_segments :=
    List.length (filter (fun c => PyNum.ltb c (-1)) confidences) in
  (* timing statistics *)
  let segment_lengths := map (fun seg => (end_ seg - start seg)%Q) segments in
  avg_segment_length <-
    (if truthy segment_lengths
     then PyNum.truediv (PyNum.sum segment_lengths) (PyNum.len segment_lengths)
     else Ok 0%Q) ;;
  longest_segment <-
    (if truthy segment_lengths then PyNum.max segment_lengths else Ok 0%Q) ;;
  shortest_segment <-
    (if truthy segment_lengths then PyNum.min segment_lengths else Ok 0%Q) ;;
  (* pause statistics *)
  let pauses := pauses_of segments in
  avg_pause_duration <-
    (if truthy pauses
     then PyNum.truediv (PyNum.sum pauses) (PyNum.len pauses)
     else Ok 0%Q) ;;
  longest_pause <- (if truthy pauses then PyNum.max pauses else Ok 0%Q) ;;
  let total_pause_time := PyNum.sum pauses in
  (* the dictionary [metadata] *)
  let duration := format_duration audio_duration in
  audio_quality <- get_audio_quality_estimate result ;;
  high <- PyNum.truediv (of_nat high_confidence_segments) (PyNum.len segments) ;;
  medium <-
    PyNum.truediv (of_nat medium_confidence_segments) (PyNum.len segments) ;;
  low <- PyNum.truediv (of_nat low_confidence_segments) (PyNum.len segments) ;;
  speech_vs_pause_ratio <-
    (if PyNum.ltb 0 audio_duration
     then q <- PyNum.truediv (audio_duration - total_pause_time)%Q
                             audio_duration ;;
          Ok (PyNum.round (q * 100)%Q 1)
     else Ok 0%Q) ;;
  Ok (Metadata.mk
        duration
        audio_quality
        (List.length segments)
        total_words
        (PyNum.round avg_words_per_segment 1)
        (PyNum.round avg_confidence 3)
        (PyNum.round (high * 100)%Q 1)
        (PyNum.round (medium * 100)%Q 1)
        (PyNum.round (low * 100)%Q 1)
        (PyNum.round avg_segment_length 2)
        (PyNum.round longest_segment 2)
        (PyNum.round shortest_segment 2)
        (List.length pauses)
        (PyNum.round avg_pause_duration 2)
        (PyNum.round longest_pause 2)
        (PyNum.round total_pause_time 2)
        speech_vs_pause_ratio).

Open Scope list_scope.
Open Scope nat_scope.

Definition scenario_A : list segment :=
  [ mkSegment 0 2 "Hello there" (Some (-3 # 10)%Q);
    mkSegment (21 # 10) 4 "I am fine" (Some (-4 # 10)%Q) ].

Definition scenario_B : list segment :=
  [ mkSegment 0 2 "A" (Some (-2 # 10)%Q);
    mkSegment 5 7 "B" (Some (-2 # 10)%Q) ].

(** Three segments separated by long pauses. *)
Definition three_turns : list segment :=
  [ mkSegment 0 2 "A" None; mkSegment 5 7 "B" None; mkSegment 10 12 "C" None ].

(** The two fixed roles. *)
Definition role (s : string) : Prop := s = "INTERVIEWER" \/ s = "PARTICIPANT".

(** ** Observations on a run of the attributor *)

Section Run.

Variable segments : list segment.
Variables silence_threshold min_speaker_time : Q.

(** The label given to segment [i]. *)
Definition label (i : nat) : string :=
  nth i (detect_speaker_changes segments silence_threshold min_speaker_time) "".

(** Segment [i >= 1] carries another label than segment [i - 1]. *)
Definition flips_at (i : nat) : bool :=
  negb (String.eqb (label i) (label (i - 1))).

(** [segments[i].start] and [segments[i].end] *)
Definition start_at (i : nat) : Q := start (nth i segments (mkSegment 0 0 "" None)).
Definition end_at (i : nat) : Q := end_ (nth i segments (mkSegment 0 0 "" None)).

(** [gap] at segment [i >= 1] *)
Definition gap_at (i : nat) : Q := (start_at i - end_at (i - 1))%Q.

(** [last_speaker_change_time] when iteration [i] begins. *)
Definition change_time_before (i : nat) : Q :=
  last_speaker_change_time
    (attributor_after segments silence_threshold min_speaker_time i).

End Run.

(** ** Pauses, as the adjacent pairs of the sequence *)

(** [start[i] - end[i-1]] for every adjacent pair, in order. *)
Fixpoint adjacent_gaps (segments : list segment) : list Q :=
  match segments with
  | [] => []
  | a :: rest =>
      match rest with
      | [] => []
      | b :: _ => (start b - end_ a)%Q :: adjacent_gaps rest
      end
  end.

(** The gaps that are strictly positive. *)
Definition positive_gaps (segments : list segment) : list Q :=
  filter (fun p => PyNum.ltb 0 p) (adjacent_gaps segments).

(** Scenario D: the second segment starts where the first one ends. *)
Definition scenario_D : transcription :=
  mkTranscription (Some 6%Q)
    [ mkSegment 0 2 "et" (Some (-1 # 10)%Q);
      mkSegment 2 4 "to" (Some (-1 # 10)%Q);
      mkSegment 5 6 "tre" (Some (-1 # 10)%Q) ].

(** ** Missing confidence scores *)

(** The segment with [v] written where the confidence is missing. *)
Definition fill_confidence (v : Q) (seg : segment) : segment :=
  mkSegment (start seg) (end_ seg) (text seg) (Some (get (avg_logprob seg) v)).

Definition fill_confidences (v : Q) (result : transcription) : transcription :=
  mkTranscription (res_duration result)
                  (map (fill_confidence v) (res_segments result)).

(** One scored segment and one without a score. *)
Definition partly_scored : transcription :=
  mkTranscription (Some 4%Q)
    [ mkSegment 0 2 "ja" (Some (-2 # 10)%Q); mkSegment 2 4 "nej" None ].

(** ** A recording shorter than its pauses *)

Definition overlong_pause : transcription :=
  mkTranscription (Some 5%Q)
    [ mkSegment 0 1 "ja" (Some (-1 # 10)%Q);
      mkSegment 10 11 "nej" (Some (-1 # 10)%Q) ].

(** ** Zero padding, as the interface describes it *)

(** The decimal digits of a natural number. *)
Definition decimal (k : Z) : string :=
  NilZero.string_of_uint (N.to_uint (Z.to_N k)).

(** A natural number zero-padded to width 2: a number below ten gets one
    leading zero, a longer number is left as it is. *)
Definition zero_pad2 (k : Z) : string :=
  if (k <? 10)%Z then ("0" ++ decimal k)%string else decimal k.

(** ["MM:SS"] and ["HH:MM:SS"] of whole numbers. *)
Definition mm_ss (m s : Z) : string :=
  (zero_pad2 m ++ ":" ++ zero_pad2 s)%string.
Definition hh_mm_ss (h m s : Z) : string :=
  (zero_pad2 h ++ ":" ++ zero_pad2 m ++ ":" ++ zero_pad2 s)%string.

(** ** Shapes of text, for the normaliser *)

(** Some character of [s] is not whitespace. *)
Fixpoint has_nws (s : string) : bool :=
  match s with
  | EmptyString => false
  | String c s' => negb (PyStr.is_space c) || has_nws s'
  end.

(** Some character after the first one is not whitespace. *)
Definition tail_nws (s : string) : bool :=
  match s with
  | EmptyString => false
  | String _ t => has_nws t
  end.

(** Some character after the first two is not whitespace. *)
Definition core3 (s : string) : bool :=
  match s with
  | EmptyString => false
  | String _ t => tail_nws t
  end.

(** The text stripped on the left keeps at least three characters when it
    is stripped on the right. *)
Definition long3 (s : string) : bool := core3 (PyStr.lstrip s).


(** * The transcript and its summary *)

(** ** More of Python's strings *)

(** [s.split(sep)] for a separator of one character: the text between the
    occurrences of [sep], always at least one part. *)
Fixpoint split_char (sep : ascii) (s : string) : list string :=
  match s with
  | EmptyString => [EmptyString]
  | String c s' =>
      match split_char sep s' with
      | [] => []
      | p :: ps =>
          if Ascii.eqb c sep then EmptyString :: p :: ps
          else String c p :: ps
      end
  end.

(** The underscores of an integer literal: one at a time and between two
    digits.  [after_digit] tells whether the previous character is a digit. *)
Fixpoint underscores_ok (after_digit : bool) (s : string) : bool :=
  match s with
  | EmptyString => after_digit
  | String c s' =>
      if Ascii.eqb c "_" then after_digit && underscores_ok false s'
      else underscores_ok true s'
  end.

Fixpoint remove_underscores (s : string) : string :=
  match s with
  | EmptyString => EmptyString
  | String c s' =>
      if Ascii.eqb c "_" then remove_underscores s'
      else String c (remove_underscores s')
  end.

(** The digits of [int(s)], after the sign. *)
Definition int_of_digits (s : string) : outcome Z :=
  if underscores_ok false s then
    match NilEmpty.uint_of_string (remove_underscores s) with
    | Some d => Ok (Z.of_N (N.of_uint d))
    | None => Raise ValueError
    end
  else Raise ValueError.

(** [int(s)] on a string: surrounding whitespace, an optional sign, decimal
    digits with single underscores between them; anything else raises. *)
Definition int_of_str (s : string) : outcome Z :=
  match PyStr.strip s with
  | String "-" r => v <- int_of_digits r ;; Ok (- v)%Z
  | String "+" r => int_of_digits r
  | r => int_of_digits r
  end.

(** ** Dictionaries with string keys, in insertion order *)

(** [d.get(k, default)] *)
Fixpoint dict_get {V : Type} (d : list (string * V)) (k : string) (default : V) : V :=
  match d with
  | [] => default
  | (k', v) :: d' => if String.eqb k' k then v else dict_get d' k default
  end.

(** [d[k] = v]: an existing key keeps its place, a new key goes last. *)
Fixpoint dict_set {V : Type} (d : list (string * V)) (k : string) (v : V)
  : list (string * V) :=
  match d with
  | [] => [(k, v)]
  | (k', v') :: d' =>
      if String.eqb k' k then (k', v) :: d' else (k', v') :: dict_set d' k v
  end.

(** ** The transcript records *)

Module SegmentData.

(** One dictionary [segment_data] of [transcript_segments]. *)
Record t : Type := mk {
  start_time : string;
  end_time : string;
  speaker : string;
  text : string;
  confidence : Q
}.

End SegmentData.

(** One iteration of the loop of [main] that builds [transcript_segments];
    [speakers[i]] is in range because the attributor returns one label per
    segment. *)
Definition transcript_body (speakers : list string)
    (transcript_segments : list SegmentData.t) (ie : nat * segment)
  : list SegmentData.t :=
  let (i, seg) := ie in
  let segment_data :=
    SegmentData.mk (format_timestamp (start seg))
                   (format_timestamp (end_ seg))
                   (getitem speakers i "")
                   (PyStr.strip (text seg))
                   (get (avg_logprob seg) 0%Q) in
  transcript_segments ++ [segment_data].

(** The list [transcript_segments] of [main], with the parameters
    [main] passes to the attributor. *)
Definition transcript_of (segments : list segment) : list SegmentData.t :=
  let speakers := detect_speaker_changes segments (12 # 10) 4 in
  fold_left (transcript_body speakers) (enumerate segments) [].

(** ** The printed turns *)

(** What the printing loop writes: an empty line between two speakers, and
    one line per record with its turn number and its marked text. *)
Inductive line : Type :=
| BlankLine
| TurnLine (turn_number : nat) (seg : SegmentData.t) (marked_text : string).

(** The local variables of the printing loop. *)
Record printer : Type := mkPrinter {
  printed : list line;
  pr_current_speaker : option string;
  turn_number : nat
}.

Definition differs (current : option string) (speaker : string) : bool :=
  match current with
  | None => true
  | Some c => negb (String.eqb c speaker)
  end.

(** One iteration of the loop over [transcript_segments]. *)
Definition printer_body (st : printer) (seg : SegmentData.t) : printer :=
  let st' :=
    if differs (pr_current_speaker st) (SegmentData.speaker seg) then
      mkPrinter
        (match pr_current_speaker st with
         | Some _ => printed st ++ [BlankLine]
         | None => printed st
         end)
        (Some (SegmentData.speaker seg))
        (turn_number st + 1)
    else st in
  let marked_text := add_content_markers (SegmentData.text seg) in
  mkPrinter (printed st' ++ [TurnLine (turn_number st') seg marked_text])
            (pr_current_speaker st') (turn_number st').

(** The lines of the transcript, in the console and in the text file. *)
Definition print_turns (transcript_segments : list SegmentData.t) : list line :=
  printed (fold_left printer_body transcript_segments (mkPrinter [] None 0)).

(** ** The summary *)

(** [total_minutes] of the summary, read back from the formatted duration. *)
Definition total_minutes_of (duration : string) : outcome Q :=
  let duration_parts := split_char ":" duration in
  a <- int_of_str (getitem duration_parts 0 "") ;;
  b <- int_of_str (getitem duration_parts 1 "") ;;
  Ok (inject_Z a + inject_Z b / 60)%Q.

(** [speech_rate] of the summary. *)
Definition speech_rate_of (duration : string) (total_words : nat) : outcome Q :=
  total_minutes <- total_minutes_of duration ;;
  if PyNum.ltb 0 total_minutes
  then PyNum.truediv (of_nat total_words) total_minutes
  else Ok 0%Q.

(** One iteration of the tally loop of the summary. *)
Definition tally_body (st : list (string * nat) * list (string * nat))
    (seg : SegmentData.t) : list (string * nat) * list (string * nat) :=
  let (speaker_counts, speaker_word_counts) := st in
  let speaker := SegmentData.speaker seg in
  let speaker_counts :=
    dict_set speaker_counts speaker (dict_get speaker_counts speaker 0 + 1) in
  let word_count := PyStr.count_words (SegmentData.text seg) in
  let speaker_word_counts :=
    dict_set speaker_word_counts speaker
             (dict_get speaker_word_counts speaker 0 + word_count) in
  (speaker_counts, speaker_word_counts).

(** [speaker_counts] and [speaker_word_counts] after the tally loop. *)
Definition tally (transcript_segments : list SegmentData.t)
  : list (string * nat) * list (string * nat) :=
  fold_left tally_body transcript_segments ([], []).

(** One printed row of the summary: speaker, turns, their percentage,
    words, their percentage. *)
Definition summary_row : Type := (string * nat * Q * nat * Q)%type.

(** The loop over [speaker_counts.items()]: it stops at the first row
    whose division fails.  [speaker_word_counts[speaker]] always finds its
    key, the two dictionaries being filled together (see [tally_fold]). *)
Fixpoint summary_rows (n_segments : Q) (total_words : nat)
    (speaker_word_counts : list (string * nat))
    (items : list (string * nat)) : outcome (list summary_row) :=
  match items with
  | [] => Ok []
  | (speaker, count) :: rest =>
      q <- PyNum.truediv (of_nat count) n_segments ;;
      let percentage := (q * 100)%Q in
      let words := dict_get speaker_word_counts speaker 0 in
      w <- PyNum.truediv (of_nat words) (of_nat total_words) ;;
      let word_percentage := (w * 100)%Q in
      rows <- summary_rows n_segments total_words speaker_word_counts rest ;;
      Ok ((speaker, count, percentage, words, word_percentage) :: rows)
  end.

(** The summary of [main]: the speech rate and the rows per speaker. *)
Definition summary (duration : string) (total_words : nat)
    (transcript_segments : list SegmentData.t)
  : outcome (Q * list summary_row) :=
  speech_rate <- speech_rate_of duration total_words ;;
  let (speaker_counts, speaker_word_counts) := tally transcript_segments in
  rows <- summary_rows (PyNum.len transcript_segments) total_words
                       speaker_word_counts speaker_counts ;;
  Ok (speech_rate, rows).

(** ** Counting, for the statements *)

(** The number of segments [1 .. i] that change the speaker. *)
Fixpoint flips_upto (segments : list segment) (silence_threshold min_speaker_time : Q)
    (i : nat) : nat :=
  match i with
  | O => 0
  | S j =>
      flips_upto segments silence_threshold min_speaker_time j
      + (if flips_at segments silence_threshold min_speaker_time (S j)
         then 1 else 0)
  end.

(** The sum of the values of a dictionary. *)
Definition dict_total (d : list (string * nat)) : nat := list_sum (map snd d).

(** The turn numbers of the printed lines, in order. *)
Fixpoint turn_numbers (lines : list line) : list nat :=
  match lines with
  | [] => []
  | BlankLine :: rest => turn_numbers rest
  | TurnLine n _ _ :: rest => n :: turn_numbers rest
  end.

(** The number of empty lines among the printed lines. *)
Fixpoint blank_lines (lines : list line) : nat :=
  match lines with
  | [] => 0
  | BlankLine :: rest => S (blank_lines rest)
  | TurnLine _ _ _ :: rest => blank_lines rest
  end.

(** The number of places where the speaker differs from the one before. *)
Fixpoint speaker_changes (transcript_segments : list SegmentData.t) : nat :=
  match transcript_segments with
  | [] => 0
  | a :: rest =>
      match rest with
      | [] => 0
      | b :: _ =>
          (if String.eqb (SegmentData.speaker a) (SegmentData.speaker b)
           then 0 else 1) + speaker_changes rest
      end
  end.

(** * Properties *)

(** ** Comparisons *)

Lemma ltb_lt (x y : Q) : PyNum.ltb x y = true <-> (x < y)%Q.
Proof.
  unfold PyNum.ltb. rewrite negb_true_iff.
  split; intro H.
  - apply Qnot_le_lt. intro Hle. apply Qle_bool_iff in Hle. congruence.
  - destruct (Qle_bool y x) eqn:E; [|reflexivity].
    apply Qle_bool_iff in E. exfalso. exact (Qlt_not_le _ _ H E).
Qed.

Lemma ltb_ge (x y : Q) : PyNum.ltb x y = false <-> (y <= x)%Q.
Proof.
  unfold PyNum.ltb. rewrite negb_false_iff. apply Qle_bool_iff.
Qed.

(** ** Lists and enumeration *)

Lemma firstn_succ {A : Type} (d : A) (l : list A) (i : nat) :
  i < List.length l -> firstn (S i) l = (firstn i l ++ [nth i l d])%list.
Proof.
  revert i. induction l as [|a l IH]; intros i Hi; simpl in Hi; [lia|].
  destruct i as [|i]; [reflexivity|].
  change (firstn (S (S i)) (a :: l)) with (a :: firstn (S i) l).
  rewrite (IH i) by lia. reflexivity.
Qed.

Lemma enumerate_length {A : Type} (l : list A) :
  List.length (enumerate l) = List.length l.
Proof.
  unfold enumerate. rewrite length_combine, length_seq. lia.
Qed.

Lemma enumerate_nth {A : Type} (d : A) (l : list A) (i : nat) :
  i < List.length l -> nth i (enumerate l) (0, d) = (i, nth i l d).
Proof.
  intro Hi. unfold enumerate.
  rewrite combine_nth by (rewrite length_seq; reflexivity).
  rewrite seq_nth by exact Hi. reflexivity.
Qed.

(** ** The attributor, step by step *)

Section AttributorFacts.

Variable segments : list segment.
Variables silence_threshold min_speaker_time : Q.

Let after := attributor_after segments silence_threshold min_speaker_time.
Let body := attributor_body segments silence_threshold min_speaker_time.
Let d0 := mkSegment 0 0 "" None.

Lemma after_0 : after 0 = attributor_init.
Proof. reflexivity. Qed.

Lemma after_succ (i : nat) :
  i < List.length segments ->
  after (S i) = body (after i) (i, nth i segments d0).
Proof.
  intro Hi. unfold after, attributor_after.
  rewrite (firstn_succ (0, d0)) by (rewrite enumerate_length; exact Hi).
  rewrite fold_left_app. simpl.
  rewrite enumerate_nth by exact Hi. reflexivity.
Qed.

Lemma after_all :
  after (List.length segments)
  = fold_left body (enumerate segments) attributor_init.
Proof.
  unfold after, attributor_after.
  rewrite <- (enumerate_length segments), firstn_all. reflexivity.
Qed.

(** Every iteration appends the speaker it ends with. *)
Lemma body_speakers (st : attributor) (ie : nat * segment) :
  speakers (body st ie) = (speakers st ++ [current_speaker (body st ie)])%list.
Proof.
  destruct ie as [i seg]. unfold body, attributor_body.
  destruct (i =? 0); [reflexivity|].
  destruct (switch_guard _ _ _ _ _ _); reflexivity.
Qed.

Lemma body_role (st : attributor) (ie : nat * segment) :
  role (current_speaker st) -> role (current_speaker (body st ie)).
Proof.
  intro H. destruct ie as [i seg]. unfold body, attributor_body.
  destruct (i =? 0); [exact H|].
  destruct (switch_guard _ _ _ _ _ _); [|exact H].
  simpl. destruct (String.eqb _ _); [right|left]; reflexivity.
Qed.

Lemma after_role (i : nat) :
  i <= List.length segments -> role (current_speaker (after i)).
Proof.
  induction i as [|i IH]; intro Hi.
  - left. reflexivity.
  - rewrite after_succ by lia. apply body_role. apply IH. lia.
Qed.

Lemma after_speakers (i : nat) :
  i <= List.length segments ->
  speakers (after i) = map (fun j => current_speaker (after (S j))) (seq 0 i).
Proof.
  induction i as [|i IH]; intro Hi.
  - reflexivity.
  - rewrite seq_S, map_app. simpl.
    rewrite <- IH by lia.
    rewrite after_succ by lia. apply body_speakers.
Qed.

Lemma detect_speakers :
  detect_speaker_changes segments silence_threshold min_speaker_time
  = map (fun j => current_speaker (after (S j))) (seq 0 (List.length segments)).
Proof.
  unfold detect_speaker_changes. fold body. rewrite <- after_all.
  apply after_speakers. lia.
Qed.

Lemma label_current (i : nat) :
  i < List.length segments ->
  label segments silence_threshold min_speaker_time i
  = current_speaker (after (S i)).
Proof.
  intro Hi. unfold label. rewrite detect_speakers.
  rewrite (nth_indep _ "" (current_speaker (after (S 0))))
    by (rewrite length_map, length_seq; exact Hi).
  rewrite (map_nth (fun j => current_speaker (after (S j)))).
  rewrite seq_nth by exact Hi. reflexivity.
Qed.

(** The guard of iteration [i], on the observations of the run. *)
Lemma guard_spec (i : nat) :
  1 <= i < List.length segments ->
  switch_guard segments silence_threshold min_speaker_time
    (after i) i (nth i segments d0) = true
  <-> (silence_threshold < gap_at segments i)%Q
      /\ (min_speaker_time
          < start_at segments i
            - change_time_before segments silence_threshold min_speaker_time i)%Q.
Proof.
  intros [H1 Hi]. unfold switch_guard. rewrite andb_true_iff, !ltb_lt.
  unfold gap_at, start_at, end_at, change_time_before. fold d0. fold after.
  rewrite (nth_indep segments (nth i segments d0) d0) by lia.
  reflexivity.
Qed.

(** Iteration [i >= 1] changes the speaker exactly when its guard holds. *)
Lemma flips_guard (i : nat) :
  1 <= i < List.length segments ->
  flips_at segments silence_threshold min_speaker_time i
  = switch_guard segments silence_threshold min_speaker_time
      (after i) i (nth i segments d0).
Proof.
  intros [H1 Hi]. unfold flips_at.
  rewrite !label_current by lia.
  replace (S (i - 1)) with i by lia.
  rewrite (after_succ i) by exact Hi.
  pose proof (after_role i ltac:(lia)) as Hr.
  unfold body, attributor_body.
  destruct (Nat.eqb_spec i 0) as [->|_]; [lia|].
  destruct (switch_guard _ _ _ _ _ _); simpl.
  - destruct Hr as [-> | ->]; reflexivity.
  - rewrite String.eqb_refl. reflexivity.
Qed.

Lemma change_time_succ (i : nat) :
  1 <= i < List.length segments ->
  change_time_before segments silence_threshold min_speaker_time (S i)
  = if flips_at segments silence_threshold min_speaker_time i
    then start_at segments i
    else change_time_before segments silence_threshold min_speaker_time i.
Proof.
  intros Hi. rewrite flips_guard by exact Hi.
  unfold change_time_before. fold after. rewrite after_succ by lia.
  unfold body, attributor_body.
  destruct (Nat.eqb_spec i 0) as [->|_]; [lia|].
  destruct (switch_guard _ _ _ _ _ _); reflexivity.
Qed.

End AttributorFacts.

(** ** Claims on the speaker attributor *)

(** C5.  At every segment [i >= 1] the attributor changes the speaker
    exactly when the gap to the previous segment is strictly greater than
    [silence_threshold] and the time since the last change is strictly
    greater than [min_speaker_time]; the change time starts at 0 and becomes
    the start of the segment on a change only; with a non-negative threshold
    a negative gap changes nothing; and the second segment of scenario B is
    labelled PARTICIPANT. *)
Theorem detect_speaker_changes_flip_rule
    (segments : list segment) (silence_threshold min_speaker_time : Q) (i : nat) :
  1 <= i < List.length segments ->
  (0 <= silence_threshold)%Q ->
  (flips_at segments silence_threshold min_speaker_time i = true
   <-> (silence_threshold < gap_at segments i)%Q
       /\ (min_speaker_time
           < start_at segments i
             - change_time_before segments silence_threshold min_speaker_time i)%Q)
  /\ change_time_before segments silence_threshold min_speaker_time 1 = 0%Q
  /\ change_time_before segments silence_threshold min_speaker_time (S i)
     = (if flips_at segments silence_threshold min_speaker_time i
        then start_at segments i
        else change_time_before segments silence_threshold min_speaker_time i)
  /\ ((gap_at segments i < 0)%Q ->
      flips_at segments silence_threshold min_speaker_time i = false)
  /\ detect_speaker_changes scenario_B (12 # 10) 1
     = ["INTERVIEWER"; "PARTICIPANT"].
Proof.
  intros Hi Hsil.
  assert (Hflip :
    flips_at segments silence_threshold min_speaker_time i = true
    <-> (silence_threshold < gap_at segments i)%Q
        /\ (min_speaker_time
            < start_at segments i
              - change_time_before segments silence_threshold min_speaker_time i)%Q).
  { rewrite flips_guard by exact Hi. apply guard_spec. exact Hi. }
  split; [exact Hflip|].
  split.
  { unfold change_time_before. rewrite after_succ by lia. reflexivity. }
  split; [apply change_time_succ; exact Hi|].
  split; [|reflexivity].
  intro Hneg.
  destruct (flips_at segments silence_threshold min_speaker_time i) eqn:E;
    [|reflexivity].
  exfalso. destruct Hflip as [Hf _]. destruct (Hf eq_refl) as [Hgap _].
  apply (Qlt_irrefl 0).
  apply Qle_lt_trans with silence_threshold; [exact Hsil|].
  apply Qlt_trans with (gap_at segments i); assumption.
Qed.

Lemma detect_speaker_changes_flip_rule_witness :
  flips_at scenario_B (12 # 10) 1 1 = true
  <-> ((12 # 10) < gap_at scenario_B 1)%Q
      /\ (1 < start_at scenario_B 1
              - change_time_before scenario_B (12 # 10) 1 1)%Q.
Proof.
  apply (detect_speaker_changes_flip_rule scenario_B (12 # 10) 1 1).
  - simpl. lia.
  - unfold Qle. simpl. lia.
Defined.

(** C6.  The attributor returns one label per segment, every label is one
    of the two roles, and the first label of a non-empty sequence is
    INTERVIEWER whatever the parameters. *)
Theorem detect_speaker_changes_labels
    (segments : list segment) (silence_threshold min_speaker_time : Q) :
  List.length (detect_speaker_changes segments silence_threshold min_speaker_time)
  = List.length segments
  /\ Forall role
       (detect_speaker_changes segments silence_threshold min_speaker_time)
  /\ hd_error (detect_speaker_changes segments silence_threshold min_speaker_time)
     = (if truthy segments then Some "INTERVIEWER" else None).
Proof.
  rewrite detect_speakers.
  split; [rewrite length_map, length_seq; reflexivity|].
  split.
  - apply Forall_forall. intros x Hx.
    apply in_map_iff in Hx. destruct Hx as [j [<- Hj]].
    apply in_seq in Hj. apply after_role. lia.
  - destruct segments as [|s0 rest]; [reflexivity|].
    change (seq 0 (List.length (s0 :: rest)))
      with (0 :: seq 1 (List.length rest)).
    cbn [map hd_error truthy]. reflexivity.
Qed.

(** C7.  Two consecutive speaker changes, at segments [i < j] with no change
    in between, are separated by strictly more than [min_speaker_time]:
    the start of segment [j] minus the start of segment [i] exceeds it. *)
Theorem detect_speaker_changes_no_flip_too_soon
    (segments : list segment) (silence_threshold min_speaker_time : Q)
    (i j : nat) :
  1 <= i -> i < j -> j < List.length segments ->
  flips_at segments silence_threshold min_speaker_time i = true ->
  flips_at segments silence_threshold min_speaker_time j = true ->
  (forall k, i < k < j ->
             flips_at segments silence_threshold min_speaker_time k = false) ->
  (min_speaker_time < start_at segments j - start_at segments i)%Q.
Proof.
  intros H1 Hij Hj Fi Fj Hbetween.
  assert (Hkeep : forall n, i + 1 + n <= j ->
    change_time_before segments silence_threshold min_speaker_time (i + 1 + n)
    = start_at segments i).
  { induction n as [|n IH]; intro Hn.
    - replace (i + 1 + 0) with (S i) by lia.
      rewrite change_time_succ by lia. rewrite Fi. reflexivity.
    - replace (i + 1 + S n) with (S (i + 1 + n)) by lia.
      rewrite change_time_succ by lia.
      rewrite Hbetween by lia. apply IH. lia. }
  specialize (Hkeep (j - (i + 1))).
  replace (i + 1 + (j - (i + 1))) with j in Hkeep by lia.
  rewrite flips_guard in Fj by lia.
  apply guard_spec in Fj; [|lia].
  destruct Fj as [_ Ht]. rewrite Hkeep in Ht by lia. exact Ht.
Qed.

Lemma detect_speaker_changes_no_flip_too_soon_witness :
  (1 < start_at three_turns 2 - start_at three_turns 1)%Q.
Proof.
  apply (detect_speaker_changes_no_flip_too_soon three_turns (12 # 10) 1 1 2).
  - lia.
  - lia.
  - simpl. lia.
  - reflexivity.
  - reflexivity.
  - intros k Hk. lia.
Defined.

(** ** Claims on the statistics *)

Lemma pauses_index_in_range (segments : list segment) (i : nat) :
  In i (range 1 (List.length segments)) ->
  i < List.length segments /\ i - 1 < List.length segments.
Proof.
  unfold range. intro H. apply in_seq in H. lia.
Qed.

Lemma pauses_fold (segments : list segment) (k : nat) :
  fold_left (pauses_body segments) (seq 1 k) []
  = filter (fun p => PyNum.ltb 0 p) (map (gap_at segments) (seq 1 k)).
Proof.
  induction k as [|k IH]; [reflexivity|].
  rewrite seq_S, fold_left_app, map_app, filter_app, IH.
  unfold pauses_body, getitem, gap_at, start_at, end_at. simpl.
  destruct (PyNum.ltb 0 _); [reflexivity|].
  rewrite app_nil_r. reflexivity.
Qed.

Lemma gaps_adjacent (segments : list segment) :
  map (gap_at segments) (seq 1 (List.length segments - 1))
  = adjacent_gaps segments.
Proof.
  induction segments as [|a rest IH]; [reflexivity|].
  destruct rest as [|b rest']; [reflexivity|].
  change (List.length (a :: b :: rest') - 1) with (S (List.length rest')).
  change (adjacent_gaps (a :: b :: rest'))
    with ((start b - end_ a)%Q :: adjacent_gaps (b :: rest')).
  rewrite <- IH.
  change (List.length (b :: rest') - 1) with (List.length rest' - 0).
  rewrite Nat.sub_0_r.
  change (seq 1 (S (List.length rest'))) with (1 :: seq 2 (List.length rest')).
  cbn [map]. f_equal.
  rewrite <- (seq_shift (List.length rest') 1), map_map.
  apply map_ext_in. intros i Hi. apply in_seq in Hi.
  unfold gap_at, start_at, end_at.
  destruct i as [|i]; [lia|].
  replace (S (S i) - 1) with (S i) by lia.
  replace (S i - 1) with i by lia.
  reflexivity.
Qed.

Lemma pauses_positive_gaps (segments : list segment) :
  pauses_of segments = positive_gaps segments.
Proof.
  unfold pauses_of, positive_gaps, range.
  rewrite pauses_fold, gaps_adjacent. reflexivity.
Qed.

(** Reading a successful run of [compute_metadata] back, bind by bind. *)
Ltac invert_metadata H :=
  unfold compute_metadata, bind in H;
  repeat match type of H with
         | match ?x with Ok _ => _ | Raise _ => _ end = Ok _ =>
             let E := fresh "E" in destruct x eqn:E; [|discriminate H]
         end;
  injection H as <-.

(** C8.  The pause list holds [start[i] - end[i-1]] of an adjacent pair
    exactly when it is strictly positive: it is the list of the adjacent
    gaps with the zero and negative ones filtered out (not clamped), and
    the pause count, average, maximum and total time of the statistics are
    taken over this filtered list. *)
Theorem pauses_are_positive_gaps (result : transcription) (m : Metadata.t) :
  compute_metadata result = Ok m ->
  let gaps := positive_gaps (res_segments result) in
  pauses_of (res_segments result) = gaps
  /\ (forall p, In p gaps <->
        exists i, 1 <= i < List.length (res_segments result)
                  /\ p = gap_at (res_segments result) i /\ (0 < p)%Q)
  /\ Metadata.total_pauses m = List.length gaps
  /\ Metadata.total_pause_time m = PyNum.round (PyNum.sum gaps) 2
  /\ (exists a,
        (if truthy gaps then PyNum.truediv (PyNum.sum gaps) (PyNum.len gaps)
         else Ok 0%Q) = Ok a
        /\ Metadata.avg_pause_duration m = PyNum.round a 2)
  /\ (exists b,
        (if truthy gaps then PyNum.max gaps else Ok 0%Q) = Ok b
        /\ Metadata.longest_pause m = PyNum.round b 2).
Proof.
  intros H gaps.
  assert (Hp : pauses_of (res_segments result) = gaps)
    by apply pauses_positive_gaps.
  split; [exact Hp|].
  split.
  { intro p. unfold gaps, positive_gaps.
    rewrite <- gaps_adjacent, filter_In, in_map_iff, ltb_lt.
    split.
    - intros [[i [Hi Hin]] Hpos]. apply in_seq in Hin.
      exists i. repeat split; try lia; [symmetry; exact Hi | exact Hpos].
    - intros [i [Hi [-> Hpos]]]. split; [|exact Hpos].
      exists i. split; [reflexivity|]. apply in_seq. lia. }
  invert_metadata H. cbn [Metadata.total_pauses Metadata.total_pause_time
    Metadata.avg_pause_duration Metadata.longest_pause].
  rewrite Hp in *.
  split; [reflexivity|]. split; [reflexivity|].
  split; eexists; (split; [eassumption|reflexivity]).
Qed.

Lemma pauses_are_positive_gaps_witness :
  pauses_of (res_segments scenario_D) = positive_gaps (res_segments scenario_D).
Proof.
  refine (proj1 (pauses_are_positive_gaps scenario_D _ _)).
  vm_compute. reflexivity.
Defined.

(** C1.  On an empty segment sequence the statistics computation does not
    complete: the three confidence percentages divide by the number of
    segments without a guard, and the run ends in a division by zero,
    whatever the duration; the audio quality alone is "Unknown". *)
Theorem compute_metadata_empty_raises (audio_duration : option Q) :
  compute_metadata (mkTranscription audio_duration []) = Raise ZeroDivisionError
  /\ get_audio_quality_estimate (mkTranscription audio_duration [])
     = Ok "Unknown".
Proof.
  split; reflexivity.
Qed.

(** With one segment scored -0.2 and one without a score the audio quality
    is "Medium", whereas with -2 written for the missing score it is
    "Low". *)
Lemma audio_quality_not_default_minus_2 :
  get_audio_quality_estimate partly_scored = Ok "Medium"
  /\ get_audio_quality_estimate (fill_confidences (-2) partly_scored) = Ok "Low"
  /\ get_audio_quality_estimate partly_scored
     <> get_audio_quality_estimate (fill_confidences (-2) partly_scored).
Proof.
  split; [reflexivity|]. split; [reflexivity|].
  vm_compute. discriminate.
Qed.

Lemma fill_confidence_get (v w : Q) (segments : list segment) :
  map (fun seg => get (avg_logprob seg) w) (map (fill_confidence v) segments)
  = map (fun seg => get (avg_logprob seg) v) segments.
Proof.
  rewrite map_map. apply map_ext. intro seg. reflexivity.
Qed.

Lemma len_map {A B : Type} (f : A -> B) (l : list A) :
  PyNum.len (map f l) = PyNum.len l.
Proof.
  unfold PyNum.len. rewrite length_map. reflexivity.
Qed.

(** Where each default applies.  In the confidence list that feeds the
    average and the bucket counts a segment without a score counts as -2:
    the list, the average and the three percentages are those of the
    sequence with -2 written for every missing score.  The audio-quality
    classification averages with -1 for such a segment. *)
Theorem missing_confidence_defaults (result : transcription) (m m' : Metadata.t) :
  compute_metadata result = Ok m ->
  compute_metadata (fill_confidences (-2) result) = Ok m' ->
  confidences_of (res_segments result)
  = confidences_of (res_segments (fill_confidences (-2) result))
  /\ Metadata.avg_confidence m = Metadata.avg_confidence m'
  /\ Metadata.high_confidence_pct m = Metadata.high_confidence_pct m'
  /\ Metadata.medium_confidence_pct m = Metadata.medium_confidence_pct m'
  /\ Metadata.low_confidence_pct m = Metadata.low_confidence_pct m'
  /\ get_audio_quality_estimate result
     = get_audio_quality_estimate (fill_confidences (-1) result).
Proof.
  intros H H'.
  assert (Hc : confidences_of (res_segments (fill_confidences (-2) result))
               = confidences_of (res_segments result)).
  { unfold confidences_of, fill_confidences. cbn [res_segments].
    apply fill_confidence_get. }
  split; [symmetry; exact Hc|].
  assert (Hq : get_audio_quality_estimate result
               = get_audio_quality_estimate (fill_confidences (-1) result)).
  { unfold get_audio_quality_estimate, fill_confidences. cbn [res_segments].
    rewrite fill_confidence_get, len_map.
    destruct (res_segments result); reflexivity. }
  unfold compute_metadata in H'. rewrite Hc in H'.
  cbn [res_segments res_duration fill_confidences] in H'.
  rewrite !len_map in H'.
  invert_metadata H.
  unfold bind in H'.
  repeat match type of H' with
         | match ?x with Ok _ => _ | Raise _ => _ end = Ok _ =>
             let E := fresh "E" in destruct x eqn:E; [|discriminate H']
         end.
  injection H' as <-.
  cbn [Metadata.avg_confidence Metadata.high_confidence_pct
       Metadata.medium_confidence_pct Metadata.low_confidence_pct].
  repeat split; try exact Hq; repeat f_equal; congruence.
Qed.

Lemma missing_confidence_defaults_witness :
  exists m m' : Metadata.t,
    compute_metadata partly_scored = Ok m
    /\ compute_metadata (fill_confidences (-2) partly_scored) = Ok m'
    /\ Metadata.avg_confidence m = Metadata.avg_confidence m'.
Proof.
  assert (H : { m | compute_metadata partly_scored = Ok m })
    by (eexists; vm_compute; reflexivity).
  assert (H' : { m | compute_metadata (fill_confidences (-2) partly_scored)
                     = Ok m })
    by (eexists; vm_compute; reflexivity).
  destruct H as [m H], H' as [m' H'].
  exists m, m'. split; [exact H|]. split; [exact H'|].
  apply (missing_confidence_defaults partly_scored m m' H H').
Defined.

(** C4.  The audio-quality classification does not use the sentinel -2 of
    the statistics.  With one segment scored -0.2 and one without a score
    the same record stores the average confidence -1.1, the missing score
    counted as -2, and the audio quality "Medium", the missing score
    counted as -1; with -2 for the missing score the quality is "Low". *)
Theorem missing_confidence_quality_mismatch :
  exists m : Metadata.t,
    compute_metadata partly_scored = Ok m
    /\ (Metadata.avg_confidence m == -11 # 10)%Q
    /\ Metadata.audio_quality m = "Medium"
    /\ get_audio_quality_estimate partly_scored = Ok "Medium"
    /\ get_audio_quality_estimate (fill_confidences (-2) partly_scored)
       = Ok "Low".
Proof.
  eexists. split; [vm_compute; reflexivity|].
  repeat split.
Qed.

(** C10.  The speech ratio is not clamped: for a recording of 5 seconds
    whose two segments lie 9 seconds apart the duration is positive, the
    total pause time exceeds it, and the computed ratio is -80. *)
Theorem speech_vs_pause_ratio_negative :
  exists (result : transcription) (m : Metadata.t),
    compute_metadata result = Ok m
    /\ (0 < get (res_duration result) 0)%Q
    /\ (get (res_duration result) 0 < PyNum.sum (pauses_of (res_segments result)))%Q
    /\ (Metadata.speech_vs_pause_ratio m == -80)%Q
    /\ (Metadata.speech_vs_pause_ratio m < 0)%Q.
Proof.
  exists overlong_pause. eexists.
  split; [vm_compute; reflexivity|].
  repeat split.
Qed.

(** ** Claims on the formatters *)

Lemma int_inject_Z (z : Z) : PyNum.int (inject_Z z) = z.
Proof.
  unfold PyNum.int. destruct (Qle_bool 0 (inject_Z z)).
  - apply Qfloor_Z.
  - apply Qceiling_Z.
Qed.

Lemma int_floor (x : Q) : (0 <= Qfloor x)%Z -> PyNum.int x = Qfloor x.
Proof.
  intro H. unfold PyNum.int.
  destruct (Qle_bool 0 x) eqn:E; [reflexivity|].
  exfalso.
  assert (Hx : (0 <= x)%Q).
  { apply Qle_trans with (inject_Z (Qfloor x)); [|apply Qfloor_le].
    change 0%Q with (inject_Z 0). rewrite <- Zle_Qle. exact H. }
  apply Qle_bool_iff in Hx. congruence.
Qed.

Lemma Qfloor_div_pos (x : Q) (p : positive) :
  Qfloor (x / inject_Z (Zpos p)) = (Qfloor x / Zpos p)%Z.
Proof.
  destruct x as [n d]. unfold Qdiv, Qinv, Qmult, Qfloor. simpl.
  rewrite Z.mul_1_r, Pos2Z.inj_mul, Z.div_div by lia. reflexivity.
Qed.

Lemma Qfloor_sub_Z (x : Q) (k : Z) :
  Qfloor (x - inject_Z k) = (Qfloor x - k)%Z.
Proof.
  destruct x as [n d]. unfold Qminus, Qplus, Qopp, inject_Z, Qfloor. simpl.
  rewrite Pos.mul_1_r.
  replace (n * 1 + - k * Zpos d)%Z with (n + (- k) * Zpos d)%Z by lia.
  rewrite Z.div_add by lia. lia.
Qed.

Lemma floor_floordiv (x : Q) (p : positive) :
  PyNum.int (PyNum.floordiv x (inject_Z (Zpos p))) = (Qfloor x / Zpos p)%Z.
Proof.
  unfold PyNum.floordiv. rewrite int_inject_Z. apply Qfloor_div_pos.
Qed.

Lemma floor_mod (x : Q) (p : positive) :
  Qfloor (PyNum.mod_ x (inject_Z (Zpos p))) = (Qfloor x mod Zpos p)%Z.
Proof.
  unfold PyNum.mod_, PyNum.floordiv.
  change (inject_Z (Zpos p) * inject_Z (Qfloor (x / inject_Z (Zpos p))))%Q
    with (inject_Z (Zpos p * Qfloor (x / inject_Z (Zpos p)))).
  rewrite Qfloor_sub_Z, Qfloor_div_pos, Z.mod_eq by lia. reflexivity.
Qed.

Lemma int_mod (x : Q) (p : positive) :
  PyNum.int (PyNum.mod_ x (inject_Z (Zpos p))) = (Qfloor x mod Zpos p)%Z.
Proof.
  rewrite int_floor; rewrite floor_mod; [reflexivity|].
  apply Z.mod_pos_bound. lia.
Qed.

(** The digits of a number are fewer than two exactly below ten. *)
Lemma decimal_short (n : N) :
  (String.length (NilZero.string_of_uint (N.to_uint n)) <? 2) = (n <? 10)%N.
Proof.
  destruct (N.ltb_spec n 10) as [Hlt|Hge].
  - destruct n as [|p]; [reflexivity|].
    do 4 (try (destruct p as [p|p|]; try reflexivity; try (exfalso; lia))).
  - pose proof (DecimalN.Unsigned.of_to n) as Hn.
    destruct (N.to_uint n) as [|u|u|u|u|u|u|u|u|u|u];
      try (destruct u; first [ reflexivity | exfalso; vm_compute in Hn; lia ]).
    exfalso. vm_compute in Hn. lia.
Qed.

Lemma format_02d_zero_pad2 (k : Z) :
  (0 <= k)%Z -> PyNum.format_02d k = zero_pad2 k.
Proof.
  intro Hk. unfold PyNum.format_02d, zero_pad2, decimal.
  destruct (Z.ltb_spec k 0) as [Hneg|_]; [lia|].
  replace (Z.abs_N k) with (Z.to_N k) by (destruct k; [reflexivity..|lia]).
  rewrite decimal_short.
  replace (Z.to_N k <? 10)%N with (k <? 10)%Z; [reflexivity|].
  destruct (Z.ltb_spec k 10), (N.ltb_spec (Z.to_N k) 10); try reflexivity; lia.
Qed.

(** C9.  For a non-negative number of seconds [s] with whole part [n],
    [format_timestamp s] is "MM:SS" of [floor (s / 60) = n / 60] and
    [floor (s mod 60) = n mod 60], each zero-padded to width 2;
    [format_duration s] is "HH:MM:SS" of the hours [floor (s / 3600)], the
    minutes within the hour and the same seconds when the hours are
    positive, and the "MM:SS" of [format_timestamp] otherwise.  The
    conversions to an integer truncate, never round up. *)
Theorem format_timestamp_duration_spec (s : Q) :
  (0 <= s)%Q ->
  let n := Qfloor s in
  format_timestamp s
  = mm_ss (Qfloor (s / 60)) (Qfloor (PyNum.mod_ s 60))
  /\ Qfloor (s / 60) = (n / 60)%Z
  /\ Qfloor (PyNum.mod_ s 60) = (n mod 60)%Z
  /\ format_duration s
     = (if (0 <? Qfloor (s / 3600))%Z
        then hh_mm_ss (Qfloor (s / 3600))
                      (Qfloor (PyNum.mod_ s 3600 / 60))
                      (Qfloor (PyNum.mod_ s 60))
        else mm_ss (Qfloor (s / 60)) (Qfloor (PyNum.mod_ s 60)))
  /\ Qfloor (s / 3600) = (n / 3600)%Z
  /\ Qfloor (PyNum.mod_ s 3600 / 60) = ((n mod 3600) / 60)%Z.
Proof.
  intros Hs n.
  assert (Hn : (0 <= n)%Z).
  { unfold n. rewrite <- (Qfloor_Z 0). apply Qfloor_resp_le. exact Hs. }
  assert (E60 : Qfloor (s / 60) = (n / 60)%Z) by apply (Qfloor_div_pos s 60).
  assert (E3600 : Qfloor (s / 3600) = (n / 3600)%Z)
    by apply (Qfloor_div_pos s 3600).
  assert (M60 : Qfloor (PyNum.mod_ s 60) = (n mod 60)%Z)
    by apply (floor_mod s 60).
  assert (M3600 : Qfloor (PyNum.mod_ s 3600 / 60) = ((n mod 3600) / 60)%Z).
  { rewrite (Qfloor_div_pos _ 60). f_equal. apply (floor_mod s 3600). }
  assert (I60 : PyNum.int (PyNum.floordiv s 60) = (n / 60)%Z)
    by apply (floor_floordiv s 60).
  assert (J60 : PyNum.int (PyNum.mod_ s 60) = (n mod 60)%Z)
    by apply (int_mod s 60).
  assert (I3600 : PyNum.int (PyNum.floordiv s 3600) = (n / 3600)%Z)
    by apply (floor_floordiv s 3600).
  assert (K : PyNum.int (PyNum.floordiv (PyNum.mod_ s 3600) 60)
              = ((n mod 3600) / 60)%Z).
  { rewrite (floor_floordiv _ 60). f_equal. apply (floor_mod s 3600). }
  assert (P1 : (0 <= n / 60)%Z) by (apply Z.div_pos; lia).
  assert (P2 : (0 <= n mod 60)%Z) by (apply Z.mod_pos_bound; lia).
  assert (P3 : (0 <= n / 3600)%Z) by (apply Z.div_pos; lia).
  assert (P4 : (0 <= (n mod 3600) / 60)%Z).
  { apply Z.div_pos; [apply Z.mod_pos_bound|]; lia. }
  repeat split; try assumption.
  - unfold format_timestamp, mm_ss. rewrite I60, J60, E60, M60.
    rewrite !format_02d_zero_pad2 by assumption. reflexivity.
  - unfold format_duration, mm_ss, hh_mm_ss.
    rewrite I3600, K, J60, E3600, E60, M60, M3600.
    rewrite Z.gtb_ltb.
    destruct (Z.ltb_spec 0 (n / 3600)) as [Hh|Hh].
    + rewrite !format_02d_zero_pad2 by assumption. reflexivity.
    + assert (H0 : (n / 3600 = 0)%Z) by lia.
      apply Z.div_small_iff in H0; [|lia].
      rewrite (Z.mod_small n 3600) by lia.
      rewrite !format_02d_zero_pad2 by assumption. reflexivity.
Qed.

Lemma format_timestamp_duration_spec_witness :
  format_timestamp (725 # 10) = "01:12"
  /\ format_duration (36615 # 10) = "01:01:01".
Proof.
  split.
  - destruct (format_timestamp_duration_spec (725 # 10)) as [H _].
    + unfold Qle. simpl. lia.
    + rewrite H. reflexivity.
  - destruct (format_timestamp_duration_spec (36615 # 10)) as [_ [_ [_ [H _]]]].
    + unfold Qle. simpl. lia.
    + rewrite H. reflexivity.
Defined.

(** ** Claims on the text normaliser *)

(** C2 as the claim states it fails: the stripped text ["..."] has three
    characters, which is not below 3, so the marker is not [UNCLEAR]. *)
Lemma scenario_C_not_unclear :
  add_content_markers "  ..." <> "[UNCLEAR]".
Proof.
  vm_compute. discriminate.
Qed.

(** C2, amended.  On the input of two spaces and three dots the length
    check runs first, on the stripped text ["..."] of length 3; 3 is not
    below 3, so the substitution runs and the result is [PAUSE]. *)
Theorem scenario_C_is_pause :
  PyStr.strip "  ..." = "..."
  /\ (String.length (PyStr.strip "  ...") <? 3) = false
  /\ add_content_markers "  ..." = "[PAUSE]".
Proof.
  repeat split.
Qed.

(** The length check short-circuits: a text whose stripped form is shorter
    than 3 becomes the marker whatever it contains. *)
Lemma add_content_markers_short (text : string) :
  String.length (PyStr.strip text) < 3 ->
  add_content_markers text = "[UNCLEAR]".
Proof.
  intro H. unfold add_content_markers.
  destruct (Nat.ltb_spec (String.length (PyStr.strip text)) 3); [reflexivity|lia].
Qed.

(** C3 as the claim states it fails: four spaces are collapsed to two by
    the first application and to one by the second. *)
Lemma add_content_markers_not_idempotent :
  add_content_markers "a    b" = "a  b"
  /\ add_content_markers (add_content_markers "a    b") = "a b"
  /\ add_content_markers (add_content_markers "a    b")
     <> add_content_markers "a    b".
Proof.
  split; [reflexivity|]. split; [reflexivity|].
  vm_compute. discriminate.
Qed.

(** ** The two replacements, one occurrence at a time *)

Lemma replace_cons (old new : string) (c : ascii) (s : string) :
  PyStr.is_empty old = false ->
  PyStr.replace old new (String c s)
  = if prefix old (String c s)
    then (new ++ PyStr.replace_from old new (String.length old - 1) s)%string
    else String c (PyStr.replace old new s).
Proof.
  intro H. unfold PyStr.replace. cbn [PyStr.replace_from]. rewrite H.
  reflexivity.
Qed.

Lemma replace_pause_match (s : string) :
  PyStr.replace "..." "[PAUSE]" (String "." (String "." (String "." s)))
  = ("[PAUSE]" ++ PyStr.replace "..." "[PAUSE]" s)%string.
Proof. destruct s; reflexivity. Qed.

Lemma replace_pause_skip (c : ascii) (s : string) :
  prefix "..." (String c s) = false ->
  PyStr.replace "..." "[PAUSE]" (String c s)
  = String c (PyStr.replace "..." "[PAUSE]" s).
Proof.
  intro H. rewrite replace_cons by reflexivity. rewrite H. reflexivity.
Qed.

Lemma replace_space_match (s : string) :
  PyStr.replace "  " " " (String " " (String " " s))
  = String " " (PyStr.replace "  " " " s).
Proof. destruct s; reflexivity. Qed.

Lemma replace_space_skip (c : ascii) (s : string) :
  prefix "  " (String c s) = false ->
  PyStr.replace "  " " " (String c s) = String c (PyStr.replace "  " " " s).
Proof.
  intro H. rewrite replace_cons by reflexivity. rewrite H. reflexivity.
Qed.

Lemma prefix_cons (a : ascii) (p : string) (c : ascii) (s : string) :
  prefix (String a p) (String c s) = true <-> a = c /\ prefix p s = true.
Proof.
  cbn [prefix]. destruct (ascii_dec a c) as [E|N].
  - split; [intro H; split; assumption | intros [_ H]; exact H].
  - split; [discriminate | intros [E _]; contradiction].
Qed.

Lemma prefix_cons_false (a : ascii) (p : string) (c : ascii) (s : string) :
  a <> c -> prefix (String a p) (String c s) = false.
Proof.
  intro N. cbn [prefix]. destruct (ascii_dec a c); [contradiction|reflexivity].
Qed.

Lemma prefix_pause_inv (c : ascii) (s : string) :
  prefix "..." (String c s) = true ->
  exists s', String c s = String "." (String "." (String "." s')).
Proof.
  intro H. apply prefix_cons in H. destruct H as [<- H].
  destruct s as [|c2 s]; [discriminate|].
  apply prefix_cons in H. destruct H as [<- H].
  destruct s as [|c3 s]; [discriminate|].
  apply prefix_cons in H. destruct H as [<- _].
  exists s. reflexivity.
Qed.

Lemma prefix_space_inv (c : ascii) (s : string) :
  prefix "  " (String c s) = true ->
  exists s', String c s = String " " (String " " s').
Proof.
  intro H. apply prefix_cons in H. destruct H as [<- H].
  destruct s as [|c2 s]; [discriminate|].
  apply prefix_cons in H. destruct H as [<- _].
  exists s. reflexivity.
Qed.

(** Induction along the scan of [replace("...", "[PAUSE]")]. *)
Lemma pause_scan_ind (P : string -> Prop) :
  P "" ->
  (forall s, P s -> P (String "." (String "." (String "." s)))) ->
  (forall c s, prefix "..." (String c s) = false -> P s -> P (String c s)) ->
  forall s, P s.
Proof.
  intros H0 H3 H1.
  assert (H : forall n s, String.length s <= n -> P s).
  { induction n as [|n IH]; intros s Hs.
    - destruct s; [exact H0 | simpl in Hs; lia].
    - destruct s as [|c s]; [exact H0|].
      destruct (prefix "..." (String c s)) eqn:E.
      + apply prefix_pause_inv in E. destruct E as [s' E].
        rewrite E in *. apply H3. apply IH. simpl in Hs. lia.
      + apply H1; [exact E|]. apply IH. simpl in Hs. lia. }
  intro s. apply (H (String.length s)). lia.
Qed.

(** Induction along the scan of [replace("  ", " ")]. *)
Lemma space_scan_ind (P : string -> Prop) :
  P "" ->
  (forall s, P s -> P (String " " (String " " s))) ->
  (forall c s, prefix "  " (String c s) = false -> P s -> P (String c s)) ->
  forall s, P s.
Proof.
  intros H0 H2 H1.
  assert (H : forall n s, String.length s <= n -> P s).
  { induction n as [|n IH]; intros s Hs.
    - destruct s; [exact H0 | simpl in Hs; lia].
    - destruct s as [|c s]; [exact H0|].
      destruct (prefix "  " (String c s)) eqn:E.
      + apply prefix_space_inv in E. destruct E as [s' E].
        rewrite E in *. apply H2. apply IH. simpl in Hs. lia.
      + apply H1; [exact E|]. apply IH. simpl in Hs. lia. }
  intro s. apply (H (String.length s)). lia.
Qed.

Lemma prefix_nil (s : string) : prefix "" s = true.
Proof. destruct s; reflexivity. Qed.

Lemma contains_cons_false (p : string) (c : ascii) (s : string) :
  PyStr.contains p (String c s) = false <->
  prefix p (String c s) = false /\ PyStr.contains p s = false.
Proof.
  cbn [PyStr.contains]. apply orb_false_iff.
Qed.

(** A text without the pattern is left alone. *)
Lemma replace_pause_stable (s : string) :
  PyStr.contains "..." s = false -> PyStr.replace "..." "[PAUSE]" s = s.
Proof.
  induction s as [|c s IH]; intro H; [reflexivity|].
  apply contains_cons_false in H. destruct H as [Hp Hc].
  rewrite replace_pause_skip by exact Hp. rewrite IH by exact Hc. reflexivity.
Qed.

Lemma replace_space_stable (s : string) :
  PyStr.contains "  " s = false -> PyStr.replace "  " " " s = s.
Proof.
  induction s as [|c s IH]; intro H; [reflexivity|].
  apply contains_cons_false in H. destruct H as [Hp Hc].
  rewrite replace_space_skip by exact Hp. rewrite IH by exact Hc. reflexivity.
Qed.

(** The first character of a replaced text. *)
Lemma replace_pause_first (s : string) (c : ascii) (t : string) :
  PyStr.replace "..." "[PAUSE]" s = String c t -> c <> "["%char ->
  exists t', s = String c t'.
Proof.
  destruct s as [|c1 s1]; [discriminate|].
  destruct (prefix "..." (String c1 s1)) eqn:E.
  - apply prefix_pause_inv in E. destruct E as [s' ->].
    rewrite replace_pause_match. intros H N. injection H as H _. congruence.
  - rewrite replace_pause_skip by exact E. intros H _. injection H as -> _.
    exists s1. reflexivity.
Qed.

Lemma replace_space_first (s : string) (c : ascii) (t : string) :
  PyStr.replace "  " " " s = String c t -> exists t', s = String c t'.
Proof.
  destruct s as [|c1 s1]; [discriminate|].
  destruct (prefix "  " (String c1 s1)) eqn:E.
  - apply prefix_space_inv in E. destruct E as [s' ->].
    rewrite replace_space_match. intro H. injection H as <- _.
    eexists. reflexivity.
  - rewrite replace_space_skip by exact E. intro H. injection H as -> _.
    exists s1. reflexivity.
Qed.

Lemma prefix_first (a : ascii) (p s : string) :
  prefix (String a p) s = true -> exists t, s = String a t /\ prefix p t = true.
Proof.
  destruct s as [|c t]; [discriminate|].
  intro H. apply prefix_cons in H. destruct H as [<- H].
  exists t. split; [reflexivity|exact H].
Qed.

(** The first two characters of a replaced text come from the text. *)
Lemma replace_pause_prefix2 (a b : ascii) (s : string) :
  a <> "["%char -> b <> "["%char ->
  prefix (String a (String b "")) (PyStr.replace "..." "[PAUSE]" s) = true ->
  prefix (String a (String b "")) s = true.
Proof.
  intros Na Nb.
  destruct s as [|c1 s1]; [discriminate|].
  destruct (prefix "..." (String c1 s1)) eqn:E.
  - apply prefix_pause_inv in E. destruct E as [s' ->].
    rewrite replace_pause_match. intro H. apply prefix_first in H.
    destruct H as [t [H _]]. injection H as H _. congruence.
  - rewrite replace_pause_skip by exact E. intro H.
    apply prefix_cons in H. destruct H as [<- H].
    apply prefix_first in H. destruct H as [t [H _]].
    apply replace_pause_first in H; [|exact Nb]. destruct H as [t' ->].
    apply prefix_cons. split; [reflexivity|].
    apply prefix_cons. split; [reflexivity|apply prefix_nil].
Qed.

Lemma replace_space_prefix2 (a b : ascii) (s : string) :
  a <> " "%char ->
  prefix (String a (String b "")) (PyStr.replace "  " " " s) = true ->
  prefix (String a (String b "")) s = true.
Proof.
  intros Na.
  destruct s as [|c1 s1]; [discriminate|].
  destruct (prefix "  " (String c1 s1)) eqn:E.
  - apply prefix_space_inv in E. destruct E as [s' ->].
    rewrite replace_space_match. intro H. apply prefix_cons in H.
    destruct H as [H _]. congruence.
  - rewrite replace_space_skip by exact E. intro H.
    apply prefix_cons in H. destruct H as [<- H].
    apply prefix_first in H. destruct H as [t [H _]].
    apply replace_space_first in H. destruct H as [t' ->].
    apply prefix_cons. split; [reflexivity|].
    apply prefix_cons. split; [reflexivity|apply prefix_nil].
Qed.

(** After the first replacement no three dots are left. *)
Lemma replace_pause_no_dots (s : string) :
  PyStr.contains "..." (PyStr.replace "..." "[PAUSE]" s) = false.
Proof.
  induction s as [| s IH | c s E IH] using pause_scan_ind.
  - reflexivity.
  - rewrite replace_pause_match. exact IH.
  - rewrite replace_pause_skip by exact E.
    apply contains_cons_false. split; [|exact IH].
    destruct (prefix "..." (String c (PyStr.replace "..." "[PAUSE]" s))) eqn:F;
      [|reflexivity].
    apply prefix_cons in F. destruct F as [<- F].
    apply replace_pause_prefix2 in F; try discriminate.
    assert (G : prefix "..." (String "." s) = true)
      by (apply prefix_cons; split; [reflexivity|exact F]).
    congruence.
Qed.

(** The second replacement brings no three dots together. *)
Lemma replace_space_no_dots (s : string) :
  PyStr.contains "..." s = false ->
  PyStr.contains "..." (PyStr.replace "  " " " s) = false.
Proof.
  induction s as [| s IH | c s E IH] using space_scan_ind; intro H.
  - reflexivity.
  - rewrite replace_space_match. apply IH. exact H.
  - apply contains_cons_false in H. destruct H as [Hp Hc].
    rewrite replace_space_skip by exact E.
    apply contains_cons_false. split; [|apply IH; exact Hc].
    destruct (prefix "..." (String c (PyStr.replace "  " " " s))) eqn:F;
      [|reflexivity].
    apply prefix_cons in F. destruct F as [<- F].
    apply replace_space_prefix2 in F; [|discriminate].
    assert (G : prefix "..." (String "." s) = true)
      by (apply prefix_cons; split; [reflexivity|exact F]).
    congruence.
Qed.

(** The first replacement makes no run of spaces longer. *)
Lemma replace_pause_no_triple (s : string) :
  PyStr.contains "   " s = false ->
  PyStr.contains "   " (PyStr.replace "..." "[PAUSE]" s) = false.
Proof.
  induction s as [| s IH | c s E IH] using pause_scan_ind; intro H.
  - reflexivity.
  - rewrite replace_pause_match. apply IH. exact H.
  - apply contains_cons_false in H. destruct H as [Hp Hc].
    rewrite replace_pause_skip by exact E.
    apply contains_cons_false. split; [|apply IH; exact Hc].
    destruct (prefix "   " (String c (PyStr.replace "..." "[PAUSE]" s))) eqn:F;
      [|reflexivity].
    apply prefix_cons in F. destruct F as [<- F].
    apply replace_pause_prefix2 in F; try discriminate.
    assert (G : prefix "   " (String " " s) = true)
      by (apply prefix_cons; split; [reflexivity|exact F]).
    congruence.
Qed.

(** Where no run of spaces is longer than two, the second replacement
    leaves single spaces only. *)
Lemma replace_space_no_double (s : string) :
  PyStr.contains "   " s = false ->
  PyStr.contains "  " (PyStr.replace "  " " " s) = false.
Proof.
  induction s as [| s IH | c s E IH] using space_scan_ind; intro H.
  - reflexivity.
  - rewrite replace_space_match.
    apply contains_cons_false in H. destruct H as [Hp H].
    apply contains_cons_false in H. destruct H as [_ Hc].
    apply contains_cons_false. split; [|apply IH; exact Hc].
    destruct (prefix "  " (String " " (PyStr.replace "  " " " s))) eqn:F;
      [|reflexivity].
    apply prefix_cons in F. destruct F as [_ F].
    apply prefix_first in F. destruct F as [t [F _]].
    apply replace_space_first in F. destruct F as [t' ->].
    assert (G : prefix "   " (String " " (String " " (String " " t'))) = true)
      by (destruct t'; reflexivity).
    congruence.
  - apply contains_cons_false in H. destruct H as [_ Hc].
    rewrite replace_space_skip by exact E.
    apply contains_cons_false. split; [|apply IH; exact Hc].
    destruct (prefix "  " (String c (PyStr.replace "  " " " s))) eqn:F;
      [|reflexivity].
    apply prefix_cons in F. destruct F as [<- F].
    apply prefix_first in F. destruct F as [t [F _]].
    apply replace_space_first in F. destruct F as [t' ->].
    assert (G : prefix "  " (String " " (String " " t')) = true)
      by (destruct t'; reflexivity).
    congruence.
Qed.

(** ** Stripping *)

Lemma rstrip_cons (c : ascii) (s : string) :
  PyStr.rstrip (String c s)
  = if PyStr.is_space c && PyStr.is_empty (PyStr.rstrip s)
    then EmptyString else String c (PyStr.rstrip s).
Proof. reflexivity. Qed.

Lemma rstrip_idem (s : string) : PyStr.rstrip (PyStr.rstrip s) = PyStr.rstrip s.
Proof.
  induction s as [|c s IH]; [reflexivity|].
  rewrite rstrip_cons.
  destruct (PyStr.is_space c && PyStr.is_empty (PyStr.rstrip s)) eqn:E;
    [reflexivity|].
  rewrite rstrip_cons, IH, E. reflexivity.
Qed.

Lemma lstrip_rstrip_lstrip (s : string) :
  PyStr.lstrip (PyStr.rstrip (PyStr.lstrip s)) = PyStr.rstrip (PyStr.lstrip s).
Proof.
  induction s as [|c s IH]; [reflexivity|].
  cbn [PyStr.lstrip]. destruct (PyStr.is_space c) eqn:E; [exact IH|].
  rewrite rstrip_cons, E. cbn [andb PyStr.lstrip]. rewrite E. reflexivity.
Qed.

Lemma strip_idem (s : string) : PyStr.strip (PyStr.strip s) = PyStr.strip s.
Proof.
  unfold PyStr.strip. rewrite lstrip_rstrip_lstrip. apply rstrip_idem.
Qed.

Lemma rstrip_is_empty (s : string) :
  PyStr.is_empty (PyStr.rstrip s) = negb (has_nws s).
Proof.
  induction s as [|c s IH]; [reflexivity|].
  rewrite rstrip_cons. cbn [has_nws]. rewrite IH.
  destruct (PyStr.is_space c), (has_nws s); reflexivity.
Qed.

(** The right-stripped text is shorter than 3 unless a character after
    the first two is not whitespace. *)
Lemma rstrip_length (s : string) :
  (String.length (PyStr.rstrip s) <? 3) = negb (core3 s).
Proof.
  destruct s as [|a [|c u]].
  - reflexivity.
  - cbn. destruct (PyStr.is_space a); reflexivity.
  - cbn [core3 tail_nws].
    rewrite (rstrip_cons a), (rstrip_cons c).
    pose proof (rstrip_is_empty u) as Hu.
    remember (PyStr.rstrip u) as r eqn:Er.
    destruct (has_nws u), r as [|r0 r']; try discriminate.
    + cbn [PyStr.is_empty]. rewrite andb_false_r.
      cbn [PyStr.is_empty]. rewrite andb_false_r. reflexivity.
    + destruct (PyStr.is_space c), (PyStr.is_space a); reflexivity.
Qed.

Lemma strip_length (s : string) :
  (String.length (PyStr.strip s) <? 3) = negb (long3 s).
Proof.
  unfold PyStr.strip, long3. apply rstrip_length.
Qed.

Lemma contains_lstrip (p s : string) :
  PyStr.contains p s = false -> PyStr.contains p (PyStr.lstrip s) = false.
Proof.
  induction s as [|c s IH]; intro H; [exact H|].
  cbn [PyStr.lstrip]. destruct (PyStr.is_space c); [|exact H].
  apply contains_cons_false in H. apply IH. apply H.
Qed.

Lemma prefix_rstrip (p s : string) :
  prefix p (PyStr.rstrip s) = true -> prefix p s = true.
Proof.
  revert p. induction s as [|c s IH]; intros p H; [exact H|].
  destruct p as [|a p]; [reflexivity|].
  rewrite rstrip_cons in H.
  destruct (PyStr.is_space c && PyStr.is_empty (PyStr.rstrip s));
    [discriminate|].
  apply prefix_cons in H. destruct H as [<- H].
  apply prefix_cons. split; [reflexivity|]. apply IH. exact H.
Qed.

Lemma contains_rstrip (a : ascii) (p s : string) :
  PyStr.contains (String a p) s = false ->
  PyStr.contains (String a p) (PyStr.rstrip s) = false.
Proof.
  induction s as [|c s IH]; intro H; [reflexivity|].
  apply contains_cons_false in H. destruct H as [Hp Hc].
  rewrite rstrip_cons.
  destruct (PyStr.is_space c && PyStr.is_empty (PyStr.rstrip s));
    [reflexivity|].
  apply contains_cons_false. split; [|apply IH; exact Hc].
  destruct (prefix (String a p) (String c (PyStr.rstrip s))) eqn:F;
    [|reflexivity].
  apply prefix_cons in F. destruct F as [<- F].
  apply prefix_rstrip in F.
  assert (G : prefix (String a p) (String a s) = true)
    by (apply prefix_cons; split; [reflexivity|exact F]).
  congruence.
Qed.

Lemma contains_strip (a : ascii) (p s : string) :
  PyStr.contains (String a p) s = false ->
  PyStr.contains (String a p) (PyStr.strip s) = false.
Proof.
  intro H. unfold PyStr.strip. apply contains_rstrip, contains_lstrip, H.
Qed.

(** ** Length of the normalised text *)

Lemma has_nws_replace_pause (s : string) :
  has_nws (PyStr.replace "..." "[PAUSE]" s) = has_nws s.
Proof.
  induction s as [| s IH | c s E IH] using pause_scan_ind.
  - reflexivity.
  - rewrite replace_pause_match. reflexivity.
  - rewrite replace_pause_skip by exact E. cbn [has_nws]. rewrite IH.
    reflexivity.
Qed.

Lemma has_nws_replace_space (s : string) :
  has_nws (PyStr.replace "  " " " s) = has_nws s.
Proof.
  induction s as [| s IH | c s E IH] using space_scan_ind.
  - reflexivity.
  - rewrite replace_space_match. exact IH.
  - rewrite replace_space_skip by exact E. cbn [has_nws]. rewrite IH.
    reflexivity.
Qed.

Lemma tail_nws_replace_pause (s : string) :
  tail_nws s = true -> tail_nws (PyStr.replace "..." "[PAUSE]" s) = true.
Proof.
  destruct s as [|c s]; [discriminate|].
  destruct (prefix "..." (String c s)) eqn:E.
  - apply prefix_pause_inv in E. destruct E as [s' ->].
    rewrite replace_pause_match. reflexivity.
  - rewrite replace_pause_skip by exact E. cbn [tail_nws].
    rewrite has_nws_replace_pause. trivial.
Qed.

Lemma tail_nws_replace_space (s : string) :
  tail_nws s = true -> tail_nws (PyStr.replace "  " " " s) = true.
Proof.
  destruct s as [|c s]; [discriminate|].
  destruct (prefix "  " (String c s)) eqn:E.
  - apply prefix_space_inv in E. destruct E as [s' ->].
    rewrite replace_space_match. cbn [tail_nws].
    rewrite has_nws_replace_space. trivial.
  - rewrite replace_space_skip by exact E. cbn [tail_nws].
    rewrite has_nws_replace_space. trivial.
Qed.

Lemma long3_cons (c : ascii) (s : string) :
  long3 (String c s) = if PyStr.is_space c then long3 s else tail_nws s.
Proof.
  unfold long3. cbn [PyStr.lstrip]. destruct (PyStr.is_space c); reflexivity.
Qed.

Lemma long3_replace_pause (s : string) :
  long3 s = true -> long3 (PyStr.replace "..." "[PAUSE]" s) = true.
Proof.
  induction s as [| s IH | c s E IH] using pause_scan_ind; intro H.
  - discriminate.
  - rewrite replace_pause_match. reflexivity.
  - rewrite replace_pause_skip by exact E. rewrite long3_cons in *.
    destruct (PyStr.is_space c); [apply IH; exact H|].
    apply tail_nws_replace_pause. exact H.
Qed.

Lemma long3_replace_space (s : string) :
  long3 s = true -> long3 (PyStr.replace "  " " " s) = true.
Proof.
  induction s as [| s IH | c s E IH] using space_scan_ind; intro H.
  - discriminate.
  - rewrite replace_space_match. apply IH. exact H.
  - rewrite replace_space_skip by exact E. rewrite long3_cons in *.
    destruct (PyStr.is_space c); [apply IH; exact H|].
    apply tail_nws_replace_space. exact H.
Qed.

(** The normalised text, when it is not the marker [UNCLEAR], is a fixed
    point of the stripping, of the first replacement and of the length
    check. *)
Lemma normalised_shape (x : string) :
  long3 x = true ->
  let y := PyStr.strip (PyStr.replace "  " " " (PyStr.replace "..." "[PAUSE]" x)) in
  add_content_markers x = y
  /\ PyStr.strip y = y
  /\ (String.length y <? 3) = false
  /\ PyStr.replace "..." "[PAUSE]" y = y.
Proof.
  intros H y.
  split.
  { unfold add_content_markers. rewrite strip_length, H. reflexivity. }
  split; [apply strip_idem|].
  split.
  { unfold y. rewrite strip_length.
    rewrite long3_replace_space; [reflexivity|].
    apply long3_replace_pause. exact H. }
  apply replace_pause_stable. unfold y.
  apply contains_strip, replace_space_no_dots, replace_pause_no_dots.
Qed.

(** C3, amended.  On every text without a run of three or more spaces the
    normaliser is idempotent: a second application changes nothing. *)
Theorem add_content_markers_idempotent (x : string) :
  PyStr.contains "   " x = false ->
  add_content_markers (add_content_markers x) = add_content_markers x.
Proof.
  intro H.
  destruct (long3 x) eqn:L.
  - destruct (normalised_shape x L) as [Hy [Hs [Hl Hr]]].
    set (y := PyStr.strip (PyStr.replace "  " " "
                             (PyStr.replace "..." "[PAUSE]" x))) in *.
    rewrite Hy. unfold add_content_markers at 1.
    rewrite Hs, Hl, Hr.
    rewrite replace_space_stable; [exact Hs|].
    unfold y. apply contains_strip, replace_space_no_double,
      replace_pause_no_triple, H.
  - unfold add_content_markers at 2 3. rewrite strip_length, L. reflexivity.
Qed.

Lemma add_content_markers_idempotent_witness :
  add_content_markers (add_content_markers "Hej.....  du  ")
  = add_content_markers "Hej.....  du  ".
Proof.
  apply (add_content_markers_idempotent "Hej.....  du  ").
  reflexivity.
Defined.

(** ** Scenario A, end to end *)

Example scenario_A_labels :
  detect_speaker_changes scenario_A (12 # 10) 4 = ["INTERVIEWER"; "INTERVIEWER"].
Proof. reflexivity. Qed.

Example scenario_A_metadata :
  exists m,
    compute_metadata (mkTranscription (Some 4%Q) scenario_A) = Ok m
    /\ Metadata.total_words m = 5
    /\ (Metadata.avg_confidence m == -35 # 100)%Q
    /\ Metadata.audio_quality m = "High".
Proof.
  eexists. split; [vm_compute; reflexivity|]. repeat split.
Qed.

(** * Further properties *)

From Stdlib Require Import Lqa.

(** ** The attributor over time *)

Lemma label_role (segments : list segment)
    (silence_threshold min_speaker_time : Q) (i : nat) :
  i < List.length segments ->
  role (label segments silence_threshold min_speaker_time i).
Proof.
  intro Hi. rewrite label_current by exact Hi. apply after_role. lia.
Qed.

Lemma flips_at_succ (segments : list segment)
    (silence_threshold min_speaker_time : Q) (i : nat) :
  flips_at segments silence_threshold min_speaker_time (S i)
  = negb (String.eqb (label segments silence_threshold min_speaker_time (S i))
                     (label segments silence_threshold min_speaker_time i)).
Proof.
  unfold flips_at. replace (S i - 1) with i by lia. reflexivity.
Qed.

Lemma label_of_flips (segments : list segment)
    (silence_threshold min_speaker_time : Q) (i : nat) :
  i < List.length segments ->
  label segments silence_threshold min_speaker_time i
  = if Nat.even (flips_upto segments silence_threshold min_speaker_time i)
    then "INTERVIEWER" else "PARTICIPANT".
Proof.
  induction i as [|i IH]; intro Hi.
  - rewrite label_current by exact Hi. rewrite after_succ by exact Hi.
    reflexivity.
  - specialize (IH ltac:(lia)).
    pose proof (label_role segments silence_threshold min_speaker_time (S i) Hi)
      as Hr.
    cbn [flips_upto]. rewrite flips_at_succ.
    destruct (String.eqb_spec
                (label segments silence_threshold min_speaker_time (S i))
                (label segments silence_threshold min_speaker_time i))
      as [E|N]; cbn [negb].
    + rewrite Nat.add_0_r, E. exact IH.
    + rewrite Nat.add_1_r, Nat.even_succ, <- Nat.negb_even.
      rewrite IH in N.
      destruct (Nat.even _); cbn [negb];
        destruct Hr as [Hr|Hr]; rewrite Hr in *; congruence.
Qed.

(** X1.  The label of a segment tells the parity of the number of speaker
    changes up to it: INTERVIEWER after an even number, PARTICIPANT after
    an odd one. *)
Theorem label_parity (segments : list segment)
    (silence_threshold min_speaker_time : Q) (i : nat) :
  i < List.length segments ->
  label segments silence_threshold min_speaker_time i
  = if Nat.even (flips_upto segments silence_threshold min_speaker_time i)
    then "INTERVIEWER" else "PARTICIPANT".
Proof.
  apply label_of_flips.
Qed.

Lemma label_parity_witness :
  label three_turns (12 # 10) 1 2 = "INTERVIEWER".
Proof.
  apply (label_parity three_turns (12 # 10) 1 2). simpl. lia.
Defined.

Lemma quiet_prefix (segments : list segment)
    (silence_threshold min_speaker_time : Q) (i : nat) :
  i < List.length segments ->
  (forall j, 1 <= j <= i ->
     (gap_at segments j <= silence_threshold)%Q
     \/ (start_at segments j <= min_speaker_time)%Q) ->
  flips_upto segments silence_threshold min_speaker_time i = 0
  /\ change_time_before segments silence_threshold min_speaker_time (S i) = 0%Q.
Proof.
  induction i as [|i IH]; intros Hi Hq.
  - split; [reflexivity|].
    unfold change_time_before. rewrite after_succ by exact Hi. reflexivity.
  - destruct IH as [IHf IHc]; [lia | intros j Hj; apply Hq; lia |].
    assert (F : flips_at segments silence_threshold min_speaker_time (S i)
                = false).
    { destruct (flips_at segments silence_threshold min_speaker_time (S i))
        eqn:E; [|reflexivity].
      exfalso. rewrite flips_guard in E by lia.
      apply guard_spec in E; [|lia]. destruct E as [Hg Ht].
      rewrite IHc in Ht.
      destruct (Hq (S i) ltac:(lia)) as [H|H].
      - exact (Qlt_not_le _ _ Hg H).
      - apply (Qlt_not_le _ _ Ht).
        unfold Qminus. rewrite Qplus_0_r. exact H. }
    split.
    + cbn [flips_upto]. rewrite IHf, F. reflexivity.
    + rewrite change_time_succ by lia. rewrite F. exact IHc.
Qed.

(** X2.  As long as every segment either follows its predecessor within
    [silence_threshold] or starts within [min_speaker_time] of time 0, the
    speaker stays INTERVIEWER. *)
Theorem quiet_start_is_interviewer (segments : list segment)
    (silence_threshold min_speaker_time : Q) (i : nat) :
  i < List.length segments ->
  (forall j, 1 <= j <= i ->
     (gap_at segments j <= silence_threshold)%Q
     \/ (start_at segments j <= min_speaker_time)%Q) ->
  label segments silence_threshold min_speaker_time i = "INTERVIEWER".
Proof.
  intros Hi Hq. rewrite label_of_flips by exact Hi.
  destruct (quiet_prefix segments silence_threshold min_speaker_time i Hi Hq)
    as [-> _].
  reflexivity.
Qed.

Lemma quiet_start_is_interviewer_witness :
  label scenario_A (12 # 10) 4 1 = "INTERVIEWER".
Proof.
  apply (quiet_start_is_interviewer scenario_A (12 # 10) 4 1).
  - simpl. lia.
  - intros j Hj. assert (j = 1) as -> by lia.
    left. unfold Qle. simpl. lia.
Defined.

Lemma body_firstn (segments : list segment)
    (silence_threshold min_speaker_time : Q) (k i : nat) (st : attributor) :
  i < k ->
  attributor_body (firstn k segments) silence_threshold min_speaker_time st
    (i, nth i (firstn k segments) (mkSegment 0 0 "" None))
  = attributor_body segments silence_threshold min_speaker_time st
      (i, nth i segments (mkSegment 0 0 "" None)).
Proof.
  intro Hi.
  assert (E : forall j d, j < k -> nth j (firstn k segments) d = nth j segments d).
  { intros j d Hj. rewrite nth_firstn.
    destruct (Nat.ltb_spec j k); [reflexivity|lia]. }
  rewrite E by exact Hi.
  unfold attributor_body, switch_guard.
  rewrite E by lia. reflexivity.
Qed.

Lemma after_firstn (segments : list segment)
    (silence_threshold min_speaker_time : Q) (k j : nat) :
  j <= k -> j <= List.length segments ->
  attributor_after (firstn k segments) silence_threshold min_speaker_time j
  = attributor_after segments silence_threshold min_speaker_time j.
Proof.
  induction j as [|j IH]; intros Hk Hn; [reflexivity|].
  rewrite after_succ by (rewrite length_firstn; lia).
  rewrite (after_succ segments) by lia.
  rewrite IH by lia. apply body_firstn. lia.
Qed.

Lemma firstn_seq (k a n : nat) : firstn k (seq a n) = seq a (Nat.min k n).
Proof.
  revert a n. induction k as [|k IH]; intros a n; [reflexivity|].
  destruct n as [|n]; [reflexivity|].
  cbn [seq firstn Nat.min]. rewrite IH. reflexivity.
Qed.

(** X3.  The attributor works online: the labels of the first [k] segments do
    not depend on the segments that follow. *)
Theorem detect_speaker_changes_prefix (segments : list segment)
    (silence_threshold min_speaker_time : Q) (k : nat) :
  detect_speaker_changes (firstn k segments) silence_threshold min_speaker_time
  = firstn k (detect_speaker_changes segments silence_threshold min_speaker_time).
Proof.
  rewrite !detect_speakers, firstn_map, firstn_seq, length_firstn.
  apply map_ext_in. intros j Hj. apply in_seq in Hj.
  rewrite after_firstn by lia. reflexivity.
Qed.

(** ** When the statistics succeed *)

Lemma len_nonzero {A : Type} (l : list A) :
  truthy l = true -> ~ (PyNum.len l == 0)%Q.
Proof.
  destruct l as [|a l]; [discriminate|]. intros _ H.
  unfold PyNum.len, Qeq in H. simpl in H. lia.
Qed.

Lemma len_pos {A : Type} (l : list A) :
  truthy l = true -> (0 < PyNum.len l)%Q.
Proof.
  destruct l as [|a l]; [discriminate|]. intros _.
  unfold PyNum.len, Qlt. simpl. lia.
Qed.

Lemma truediv_nonzero (x y : Q) :
  ~ (y == 0)%Q -> PyNum.truediv x y = Ok (x / y)%Q.
Proof.
  intro H. unfold PyNum.truediv.
  destruct (Qeq_bool y 0) eqn:E; [|reflexivity].
  apply Qeq_bool_iff in E. contradiction.
Qed.

Lemma truediv_ok (x y q : Q) :
  PyNum.truediv x y = Ok q -> q = (x / y)%Q /\ ~ (y == 0)%Q.
Proof.
  unfold PyNum.truediv. destruct (Qeq_bool y 0) eqn:E; [discriminate|].
  intro H. injection H as <-. split; [reflexivity|].
  intro H0. apply Qeq_bool_iff in H0. congruence.
Qed.

Lemma ok_div_len {A : Type} (l : list A) (x : Q) :
  truthy l = true -> exists q, PyNum.truediv x (PyNum.len l) = Ok q.
Proof.
  intro H. eexists. apply truediv_nonzero, len_nonzero, H.
Qed.

Lemma ok_guarded_div {A : Type} (l : list A) (x dflt : Q) :
  exists q,
    (if truthy l then PyNum.truediv x (PyNum.len l) else Ok dflt) = Ok q.
Proof.
  destruct (truthy l) eqn:E; [apply ok_div_len; exact E|].
  eexists. reflexivity.
Qed.

Lemma ok_guarded_max (l : list Q) :
  exists q, (if truthy l then PyNum.max l else Ok 0%Q) = Ok q.
Proof.
  destruct l; eexists; reflexivity.
Qed.

Lemma ok_guarded_min (l : list Q) :
  exists q, (if truthy l then PyNum.min l else Ok 0%Q) = Ok q.
Proof.
  destruct l; eexists; reflexivity.
Qed.

Lemma ok_ratio (d t : Q) :
  exists r,
    (if PyNum.ltb 0 d
     then q <- PyNum.truediv (d - t)%Q d ;; Ok (PyNum.round (q * 100)%Q 1)
     else Ok 0%Q) = Ok r.
Proof.
  destruct (PyNum.ltb 0 d) eqn:E; [|eexists; reflexivity].
  apply ltb_lt in E.
  rewrite truediv_nonzero.
  - eexists. reflexivity.
  - intro H. rewrite H in E. exact (Qlt_irrefl 0 E).
Qed.

Lemma ok_quality (result : transcription) :
  exists q, get_audio_quality_estimate result = Ok q.
Proof.
  unfold get_audio_quality_estimate.
  destruct (truthy (res_segments result)) eqn:E; cbn [negb];
    [|eexists; reflexivity].
  rewrite truediv_nonzero by (apply len_nonzero; exact E). cbn [bind].
  destruct (PyNum.ltb (-1 # 2) _); [eexists; reflexivity|].
  destruct (PyNum.ltb (-1) _); eexists; reflexivity.
Qed.

(** X4.  The statistics of [main] fail on the empty segment sequence and on no
    other input: every other division is guarded or has a non-zero
    divisor. *)
Theorem compute_metadata_succeeds_iff (result : transcription) :
  (exists m, compute_metadata result = Ok m) <-> res_segments result <> [].
Proof.
  split.
  - intros [m H] E. destruct result as [d segs]. cbn [res_segments] in E.
    subst segs.
    assert (R : compute_metadata (mkTranscription d [])
                = Raise ZeroDivisionError) by reflexivity.
    congruence.
  - intro N.
    assert (T : truthy (res_segments result) = true)
      by (destruct (res_segments result); [contradiction|reflexivity]).
    unfold compute_metadata. cbv zeta.
    repeat match goal with
           | |- exists m, bind ?c _ = Ok m =>
               let H := fresh "H" in
               assert (H : exists q, c = Ok q)
                 by first [ apply ok_guarded_div | apply ok_guarded_max
                          | apply ok_guarded_min | apply ok_quality
                          | apply ok_div_len; exact T | apply ok_ratio ];
               destruct H as [? H]; rewrite H; cbn [bind]
           end.
    eexists. reflexivity.
Qed.

(** X5.  The audio-quality estimate never fails; it is "Unknown" exactly on the
    empty segment sequence and one of "High", "Medium", "Low" otherwise. *)
Theorem get_audio_quality_estimate_total (result : transcription) :
  exists q,
    get_audio_quality_estimate result = Ok q
    /\ (q = "Unknown" <-> res_segments result = [])
    /\ (q = "Unknown" \/ q = "High" \/ q = "Medium" \/ q = "Low").
Proof.
  unfold get_audio_quality_estimate.
  destruct (res_segments result) as [|s rest] eqn:E.
  - exists "Unknown". cbn. repeat split; auto.
  - cbn [truthy negb].
    rewrite truediv_nonzero by (apply len_nonzero; reflexivity). cbn [bind].
    destruct (PyNum.ltb (-1 # 2) _);
      [|destruct (PyNum.ltb (-1) _)];
      eexists; (split; [reflexivity|]);
      (split; [split; discriminate | auto]).
Qed.

(** ** Bounds on the statistics *)

Lemma len_cons {A : Type} (a : A) (l : list A) :
  (PyNum.len (a :: l) == 1 + PyNum.len l)%Q.
Proof.
  unfold PyNum.len. cbn [List.length].
  rewrite Nat2Z.inj_succ, <- Z.add_1_l, inject_Z_plus. reflexivity.
Qed.

Lemma len_nonneg {A : Type} (l : list A) : (0 <= PyNum.len l)%Q.
Proof.
  unfold PyNum.len, Qle. simpl. lia.
Qed.

(** Sums against a bound on every summand. *)
Lemma fold_sum_lower (b : Q) (l : list Q) (acc : Q) :
  Forall (fun x => b < x)%Q l -> l <> [] ->
  (acc + b * PyNum.len l < fold_left Qplus l acc)%Q.
Proof.
  revert acc. induction l as [|x l IH]; intros acc H N; [contradiction|].
  inversion H as [|? ? Hx Hl]; subst.
  cbn [fold_left]. rewrite len_cons.
  destruct l as [|y l'].
  - cbn [fold_left].
    assert (E : (PyNum.len (@nil Q) == 0)%Q) by reflexivity.
    rewrite E. lra.
  - specialize (IH (acc + x)%Q Hl ltac:(discriminate)).
    apply Qle_lt_trans with (acc + x + b * PyNum.len (y :: l'))%Q; [|exact IH].
    lra.
Qed.

Lemma fold_sum_upper (b : Q) (l : list Q) (acc : Q) :
  Forall (fun x => x <= b)%Q l ->
  (fold_left Qplus l acc <= acc + b * PyNum.len l)%Q.
Proof.
  revert acc. induction l as [|x l IH]; intros acc H.
  - cbn [fold_left].
    assert (E : (PyNum.len (@nil Q) == 0)%Q) by reflexivity.
    rewrite E. lra.
  - inversion H as [|? ? Hx Hl]; subst.
    cbn [fold_left]. rewrite len_cons.
    apply Qle_trans with (acc + x + b * PyNum.len l)%Q; [apply IH; exact Hl|].
    lra.
Qed.

Lemma fold_sum_nonneg (l : list Q) (acc : Q) :
  Forall (fun x => 0 < x)%Q l -> (acc <= fold_left Qplus l acc)%Q.
Proof.
  revert acc. induction l as [|x l IH]; intros acc H.
  - cbn [fold_left]. lra.
  - inversion H as [|? ? Hx Hl]; subst. cbn [fold_left].
    apply Qle_trans with (acc + x)%Q; [lra|]. apply IH. exact Hl.
Qed.

Lemma avg_of_map (segments : list segment) (f : segment -> Q) :
  truthy segments = true ->
  PyNum.truediv (PyNum.sum (map f segments)) (PyNum.len segments)
  = Ok (PyNum.sum (map f segments) / PyNum.len segments)%Q.
Proof.
  intro T. apply truediv_nonzero, len_nonzero, T.
Qed.

(** X6.  When every segment has a confidence above -0.5 the audio quality
    is "High". *)
Theorem audio_quality_high (result : transcription) :
  res_segments result <> [] ->
  Forall (fun seg => (-1 # 2 < get (avg_logprob seg) (-1))%Q)
         (res_segments result) ->
  get_audio_quality_estimate result = Ok "High".
Proof.
  intros N H. unfold get_audio_quality_estimate.
  set (segs := res_segments result) in *.
  assert (T : truthy segs = true) by (destruct segs; [contradiction|reflexivity]).
  rewrite T. cbn [negb]. rewrite avg_of_map by exact T. cbn [bind].
  set (l := map (fun seg => get (avg_logprob seg) (-1)%Q) segs).
  assert (L : (-1 # 2 < PyNum.sum l / PyNum.len segs)%Q).
  { apply Qlt_shift_div_l; [apply len_pos; exact T|].
    assert (S : (0 + (-1 # 2) * PyNum.len l < fold_left Qplus l 0)%Q).
    { apply fold_sum_lower.
      - unfold l. apply Forall_map. exact H.
      - unfold l. destruct segs; [contradiction|discriminate]. }
    unfold l in S at 1. rewrite len_map in S. unfold PyNum.sum. lra. }
  apply ltb_lt in L. rewrite L. reflexivity.
Qed.

Lemma audio_quality_high_witness :
  get_audio_quality_estimate (mkTranscription (Some 4%Q) scenario_A) = Ok "High".
Proof.
  apply (audio_quality_high (mkTranscription (Some 4%Q) scenario_A)).
  - discriminate.
  - repeat constructor.
Defined.

(** X7.  When every segment has a confidence of at most -1, or none at all,
    the audio quality is "Low". *)
Theorem audio_quality_low (result : transcription) :
  res_segments result <> [] ->
  Forall (fun seg => (get (avg_logprob seg) (-1) <= -1)%Q)
         (res_segments result) ->
  get_audio_quality_estimate result = Ok "Low".
Proof.
  intros N H. unfold get_audio_quality_estimate.
  set (segs := res_segments result) in *.
  assert (T : truthy segs = true) by (destruct segs; [contradiction|reflexivity]).
  rewrite T. cbn [negb]. rewrite avg_of_map by exact T. cbn [bind].
  set (l := map (fun seg => get (avg_logprob seg) (-1)%Q) segs).
  assert (L : (PyNum.sum l / PyNum.len segs <= -1)%Q).
  { apply Qle_shift_div_r; [apply len_pos; exact T|].
    assert (S : (fold_left Qplus l 0 <= 0 + (-1) * PyNum.len l)%Q).
    { apply fold_sum_upper. unfold l. apply Forall_map. exact H. }
    unfold l in S at 2. rewrite len_map in S. unfold PyNum.sum. lra. }
  assert (L1 : PyNum.ltb (-1 # 2) (PyNum.sum l / PyNum.len segs) = false)
    by (apply ltb_ge; lra).
  assert (L2 : PyNum.ltb (-1) (PyNum.sum l / PyNum.len segs) = false)
    by (apply ltb_ge; lra).
  rewrite L1, L2. reflexivity.
Qed.

Lemma audio_quality_low_witness :
  get_audio_quality_estimate
    (mkTranscription None [mkSegment 0 1 "hm" None; mkSegment 1 2 "ja" None])
  = Ok "Low".
Proof.
  apply (audio_quality_low
           (mkTranscription None
              [mkSegment 0 1 "hm" None; mkSegment 1 2 "ja" None])).
  - discriminate.
  - repeat constructor; unfold Qle; simpl; lia.
Defined.

Lemma leb_gt (x y : Q) : PyNum.leb x y = false <-> (y < x)%Q.
Proof.
  unfold PyNum.leb. split; intro H.
  - apply Qnot_le_lt. intro L. apply Qle_bool_iff in L. congruence.
  - destruct (Qle_bool x y) eqn:E; [|reflexivity].
    apply Qle_bool_iff in E. exfalso. exact (Qlt_not_le _ _ H E).
Qed.

(** Every confidence falls in exactly one of the three buckets. *)
Lemma bucket_partition (l : list Q) :
  List.length (filter (fun c => PyNum.ltb (-1 # 2) c) l)
  + List.length (filter (fun c => PyNum.leb (-1) c && PyNum.leb c (-1 # 2)) l)
  + List.length (filter (fun c => PyNum.ltb c (-1)) l)
  = List.length l.
Proof.
  induction l as [|c l IH]; [reflexivity|].
  cbn [filter].
  destruct (PyNum.ltb (-1 # 2) c) eqn:H1;
    destruct (PyNum.leb (-1) c) eqn:H2;
    destruct (PyNum.leb c (-1 # 2)) eqn:H3;
    destruct (PyNum.ltb c (-1)) eqn:H4;
    cbn [andb List.length]; try lia; exfalso;
    repeat match goal with
           | H : PyNum.ltb _ _ = true |- _ => apply ltb_lt in H
           | H : PyNum.ltb _ _ = false |- _ => apply ltb_ge in H
           | H : PyNum.leb _ _ = true |- _ => apply Qle_bool_iff in H
           | H : PyNum.leb _ _ = false |- _ => apply leb_gt in H
           end; lra.
Qed.

Ltac read_divisions :=
  repeat match goal with
         | H : PyNum.truediv _ _ = Ok _ |- _ =>
             apply truediv_ok in H; destruct H as [-> _]
         end.

(** X8.  The three confidence percentages are those of three counts of
    segments that add up to the number of segments. *)
Theorem confidence_buckets_partition (result : transcription) (m : Metadata.t) :
  compute_metadata result = Ok m ->
  exists high medium low : nat,
    high + medium + low = Metadata.total_segments m
    /\ Metadata.high_confidence_pct m
       = PyNum.round (of_nat high / PyNum.len (res_segments result) * 100) 1
    /\ Metadata.medium_confidence_pct m
       = PyNum.round (of_nat medium / PyNum.len (res_segments result) * 100) 1
    /\ Metadata.low_confidence_pct m
       = PyNum.round (of_nat low / PyNum.len (res_segments result) * 100) 1.
Proof.
  intro H. invert_metadata H. read_divisions.
  cbn [Metadata.total_segments Metadata.high_confidence_pct
       Metadata.medium_confidence_pct Metadata.low_confidence_pct].
  do 3 eexists.
  split; [|split; [reflexivity|split; reflexivity]].
  rewrite bucket_partition. unfold confidences_of. apply length_map.
Qed.

Lemma confidence_buckets_partition_witness :
  exists high medium low : nat, high + medium + low = 2.
Proof.
  assert (H : { m | compute_metadata partly_scored = Ok m })
    by (eexists; vm_compute; reflexivity).
  destruct H as [m H].
  destruct (confidence_buckets_partition partly_scored m H)
    as [h [md [l [E _]]]].
  exists h, md, l. rewrite E.
  injection H as <-. reflexivity.
Defined.

Lemma round_half_even_le (y : Q) (k : Z) :
  (y <= inject_Z k)%Q -> (PyNum.round_half_even y <= k)%Z.
Proof.
  intro H.
  assert (F : (Qfloor y <= k)%Z).
  { rewrite <- (Qfloor_Z k). apply Qfloor_resp_le. exact H. }
  unfold PyNum.round_half_even.
  destruct (Z.eq_dec (Qfloor y) k) as [E|N].
  - assert (L : (y - inject_Z (Qfloor y) ?= 1 # 2)%Q = Lt).
    { apply (proj1 (Qlt_alt _ _)). rewrite E. lra. }
    rewrite L. exact F.
  - destruct (y - inject_Z (Qfloor y) ?= 1 # 2)%Q; [destruct (Z.even _)|..]; lia.
Qed.

Lemma round_le_100 (x : Q) : (x <= 100)%Q -> (PyNum.round x 1 <= 100)%Q.
Proof.
  intro H. unfold PyNum.round.
  change (inject_Z (10 ^ Z.of_nat 1)) with 10%Q.
  apply Qle_shift_div_r; [reflexivity|].
  change (100 * 10)%Q with (inject_Z 1000).
  rewrite <- Zle_Qle. apply round_half_even_le.
  change (inject_Z 1000) with 1000%Q. lra.
Qed.

Lemma pauses_positive (segments : list segment) :
  Forall (fun p => 0 < p)%Q (pauses_of segments).
Proof.
  rewrite pauses_positive_gaps. unfold positive_gaps.
  apply Forall_forall. intros p Hp. apply filter_In in Hp.
  apply ltb_lt. apply Hp.
Qed.

Lemma pauses_length (segments : list segment) :
  List.length (pauses_of segments) <= List.length segments - 1.
Proof.
  rewrite pauses_positive_gaps. unfold positive_gaps.
  rewrite <- gaps_adjacent.
  etransitivity; [apply filter_length_le|].
  rewrite length_map, length_seq. lia.
Qed.

Lemma metadata_nonempty (result : transcription) (m : Metadata.t) :
  compute_metadata result = Ok m -> res_segments result <> [].
Proof.
  intros H E. destruct result as [d segs]. cbn [res_segments] in E. subst segs.
  assert (R : compute_metadata (mkTranscription d [])
              = Raise ZeroDivisionError) by reflexivity.
  congruence.
Qed.

(** X9.  The speech ratio never exceeds 100: the pauses that are subtracted
    from the duration are all positive. *)
Theorem speech_vs_pause_ratio_le_100 (result : transcription) (m : Metadata.t) :
  compute_metadata result = Ok m ->
  (Metadata.speech_vs_pause_ratio m <= 100)%Q.
Proof.
  intro H. invert_metadata H. cbn [Metadata.speech_vs_pause_ratio].
  match goal with
  | E : (if PyNum.ltb 0 ?d then _ else _) = Ok ?q |- (?q <= 100)%Q =>
      destruct (PyNum.ltb 0 d) eqn:D;
      [ apply ltb_lt in D; unfold bind in E;
        destruct (PyNum.truediv _ d) eqn:T; [|discriminate E];
        injection E as <-; apply truediv_ok in T; destruct T as [-> _]
      | injection E as <-; unfold Qle; simpl; lia ]
  end.
  apply round_le_100.
  pose proof (fold_sum_nonneg (pauses_of (res_segments result)) 0
                (pauses_positive _)) as P.
  fold (PyNum.sum (pauses_of (res_segments result))) in P.
  set (d := get (res_duration result) 0%Q) in *.
  set (t := PyNum.sum (pauses_of (res_segments result))) in *.
  assert (Q1 : ((d - t) / d <= 1)%Q).
  { apply Qle_shift_div_r; [exact D|]. lra. }
  lra.
Qed.

Lemma speech_vs_pause_ratio_le_100_witness :
  exists m, compute_metadata scenario_D = Ok m
            /\ (Metadata.speech_vs_pause_ratio m <= 100)%Q.
Proof.
  assert (H : { m | compute_metadata scenario_D = Ok m })
    by (eexists; vm_compute; reflexivity).
  destruct H as [m H]. exists m. split; [exact H|].
  apply (speech_vs_pause_ratio_le_100 scenario_D m H).
Defined.

(** X10.  There are fewer pauses than segments. *)
Theorem total_pauses_below_segments (result : transcription) (m : Metadata.t) :
  compute_metadata result = Ok m ->
  Metadata.total_pauses m < Metadata.total_segments m.
Proof.
  intro H. pose proof (metadata_nonempty result m H) as N.
  invert_metadata H. cbn [Metadata.total_pauses Metadata.total_segments].
  pose proof (pauses_length (res_segments result)) as L.
  destruct (res_segments result); [contradiction|]. simpl in *. lia.
Qed.

Lemma total_pauses_below_segments_witness :
  exists m, compute_metadata scenario_D = Ok m
            /\ Metadata.total_pauses m < Metadata.total_segments m.
Proof.
  assert (H : { m | compute_metadata scenario_D = Ok m })
    by (eexists; vm_compute; reflexivity).
  destruct H as [m H]. exists m. split; [exact H|].
  apply (total_pauses_below_segments scenario_D m H).
Defined.

(** ** The normaliser and stripping *)

Lemma rstrip_nonspace (c : ascii) (s : string) :
  PyStr.is_space c = false ->
  PyStr.rstrip (String c s) = String c (PyStr.rstrip s).
Proof.
  intro H. rewrite rstrip_cons, H. reflexivity.
Qed.

Lemma rstrip_empty_replace_pause (s : string) :
  PyStr.is_empty (PyStr.rstrip (PyStr.replace "..." "[PAUSE]" s))
  = PyStr.is_empty (PyStr.rstrip s).
Proof.
  rewrite !rstrip_is_empty, has_nws_replace_pause. reflexivity.
Qed.

Lemma rstrip_empty_replace_space (s : string) :
  PyStr.is_empty (PyStr.rstrip (PyStr.replace "  " " " s))
  = PyStr.is_empty (PyStr.rstrip s).
Proof.
  rewrite !rstrip_is_empty, has_nws_replace_space. reflexivity.
Qed.

Lemma prefix_cons_rstrip (p : string) (c : ascii) (s : string) :
  prefix p (String c s) = false ->
  prefix p (String c (PyStr.rstrip s)) = false.
Proof.
  intro H. destruct (prefix p (String c (PyStr.rstrip s))) eqn:F;
    [|reflexivity].
  destruct p as [|a p]; [discriminate H|].
  apply prefix_cons in F. destruct F as [<- F]. apply prefix_rstrip in F.
  assert (G : prefix (String a p) (String a s) = true)
    by (apply prefix_cons; split; [reflexivity|exact F]).
  congruence.
Qed.

Lemma replace_pause_lstrip (s : string) :
  PyStr.replace "..." "[PAUSE]" (PyStr.lstrip s)
  = PyStr.lstrip (PyStr.replace "..." "[PAUSE]" s).
Proof.
  induction s as [|c s IH]; [reflexivity|].
  destruct (prefix "..." (String c s)) eqn:E.
  - apply prefix_pause_inv in E. destruct E as [s' ->].
    change (PyStr.lstrip (String "." (String "." (String "." s'))))
      with (String "." (String "." (String "." s'))).
    rewrite replace_pause_match. reflexivity.
  - rewrite replace_pause_skip by exact E. cbn [PyStr.lstrip].
    destruct (PyStr.is_space c); [exact IH|].
    apply replace_pause_skip. exact E.
Qed.

Lemma replace_pause_rstrip (s : string) :
  PyStr.replace "..." "[PAUSE]" (PyStr.rstrip s)
  = PyStr.rstrip (PyStr.replace "..." "[PAUSE]" s).
Proof.
  induction s as [| s IH | c s E IH] using pause_scan_ind.
  - reflexivity.
  - rewrite !rstrip_nonspace by reflexivity.
    rewrite !replace_pause_match. cbn [append].
    rewrite !rstrip_nonspace by reflexivity. rewrite IH. reflexivity.
  - rewrite replace_pause_skip by exact E.
    rewrite !rstrip_cons, rstrip_empty_replace_pause.
    destruct (PyStr.is_space c && PyStr.is_empty (PyStr.rstrip s));
      [reflexivity|].
    rewrite replace_pause_skip by (apply prefix_cons_rstrip; exact E).
    rewrite IH. reflexivity.
Qed.

Lemma replace_space_lstrip (s : string) :
  PyStr.replace "  " " " (PyStr.lstrip s)
  = PyStr.lstrip (PyStr.replace "  " " " s).
Proof.
  induction s as [| s IH | c s E IH] using space_scan_ind.
  - reflexivity.
  - rewrite replace_space_match. exact IH.
  - rewrite replace_space_skip by exact E. cbn [PyStr.lstrip].
    destruct (PyStr.is_space c); [exact IH|].
    apply replace_space_skip. exact E.
Qed.

Lemma replace_space_rstrip (s : string) :
  PyStr.replace "  " " " (PyStr.rstrip s)
  = PyStr.rstrip (PyStr.replace "  " " " s).
Proof.
  induction s as [| s IH | c s E IH] using space_scan_ind.
  - reflexivity.
  - rewrite replace_space_match.
    rewrite (rstrip_cons " " (String " " s)), (rstrip_cons " " s).
    rewrite (rstrip_cons " " (PyStr.replace "  " " " s)).
    rewrite rstrip_empty_replace_space.
    change (PyStr.is_space " ") with true. cbn [andb].
    destruct (PyStr.is_empty (PyStr.rstrip s)) eqn:B; [reflexivity|].
    cbn [PyStr.is_empty]. rewrite replace_space_match, IH. reflexivity.
  - rewrite replace_space_skip by exact E.
    rewrite !rstrip_cons, rstrip_empty_replace_space.
    destruct (PyStr.is_space c && PyStr.is_empty (PyStr.rstrip s));
      [reflexivity|].
    rewrite replace_space_skip by (apply prefix_cons_rstrip; exact E).
    rewrite IH. reflexivity.
Qed.

Lemma replace_strip (s : string) :
  PyStr.replace "  " " " (PyStr.replace "..." "[PAUSE]" (PyStr.strip s))
  = PyStr.strip (PyStr.replace "  " " " (PyStr.replace "..." "[PAUSE]" s)).
Proof.
  unfold PyStr.strip.
  rewrite replace_pause_rstrip, replace_pause_lstrip.
  rewrite replace_space_rstrip, replace_space_lstrip. reflexivity.
Qed.

(** X12.  [main] strips the text of a record before it normalises it; the
    stripping makes no difference to the normalised text. *)
Theorem add_content_markers_strip (text : string) :
  add_content_markers (PyStr.strip text) = add_content_markers text.
Proof.
  unfold add_content_markers.
  rewrite strip_idem, replace_strip, strip_idem. reflexivity.
Qed.

(** X13.  The normalised text never begins or ends with whitespace, is never
    shorter than three characters and never holds three dots in a row. *)
Theorem add_content_markers_shape (text : string) :
  PyStr.strip (add_content_markers text) = add_content_markers text
  /\ 3 <= String.length (add_content_markers text)
  /\ PyStr.contains "..." (add_content_markers text) = false.
Proof.
  destruct (long3 text) eqn:L.
  - destruct (normalised_shape text L) as [Hy [Hs [Hl _]]].
    rewrite Hy. split; [exact Hs|]. split.
    + apply Nat.ltb_ge. exact Hl.
    + apply contains_strip, replace_space_no_dots, replace_pause_no_dots.
  - unfold add_content_markers. rewrite strip_length, L. cbn [negb].
    repeat split. cbn. lia.
Qed.

(** ** Words *)

Lemma count_words_blank (b : bool) (s : string) :
  has_nws s = false -> PyStr.count_words_from b s = 0.
Proof.
  revert b. induction s as [|c s IH]; intros b H; [reflexivity|].
  cbn [has_nws] in H. apply orb_false_iff in H. destruct H as [Hc Hs].
  apply negb_false_iff in Hc. cbn [PyStr.count_words_from]. rewrite Hc.
  apply IH. exact Hs.
Qed.

Lemma count_words_rstrip (b : bool) (s : string) :
  PyStr.count_words_from b (PyStr.rstrip s) = PyStr.count_words_from b s.
Proof.
  revert b. induction s as [|c s IH]; intro b; [reflexivity|].
  rewrite rstrip_cons.
  destruct (PyStr.is_space c) eqn:Ec;
    destruct (PyStr.is_empty (PyStr.rstrip s)) eqn:Ee; cbn [andb].
  - rewrite rstrip_is_empty in Ee. apply negb_true_iff in Ee.
    cbn [PyStr.count_words_from]. rewrite Ec.
    symmetry. apply count_words_blank. exact Ee.
  - cbn [PyStr.count_words_from]. rewrite Ec. apply IH.
  - cbn [PyStr.count_words_from]. rewrite Ec, IH. reflexivity.
  - cbn [PyStr.count_words_from]. rewrite Ec, IH. reflexivity.
Qed.

Lemma count_words_lstrip (s : string) :
  PyStr.count_words_from false (PyStr.lstrip s)
  = PyStr.count_words_from false s.
Proof.
  induction s as [|c s IH]; [reflexivity|].
  cbn [PyStr.lstrip PyStr.count_words_from].
  destruct (PyStr.is_space c) eqn:Ec; [exact IH|].
  cbn [PyStr.count_words_from]. rewrite Ec. reflexivity.
Qed.

Lemma count_words_strip (s : string) :
  PyStr.count_words (PyStr.strip s) = PyStr.count_words s.
Proof.
  unfold PyStr.count_words, PyStr.strip.
  rewrite count_words_rstrip. apply count_words_lstrip.
Qed.

(** ** The transcript records *)

Lemma map_combine_fst {A B C : Type} (f : A -> C) (l1 : list A) (l2 : list B) :
  List.length l1 = List.length l2 ->
  map (fun p => f (fst p)) (combine l1 l2) = map f l1.
Proof.
  revert l2. induction l1 as [|a l1 IH]; intros [|b l2] H;
    try reflexivity; try discriminate.
  cbn [combine map fst]. rewrite IH by (simpl in H; lia). reflexivity.
Qed.

Lemma map_combine_snd {A B C : Type} (f : B -> C) (l1 : list A) (l2 : list B) :
  List.length l1 = List.length l2 ->
  map (fun p => f (snd p)) (combine l1 l2) = map f l2.
Proof.
  revert l2. induction l1 as [|a l1 IH]; intros [|b l2] H;
    try reflexivity; try discriminate.
  cbn [combine map snd]. rewrite IH by (simpl in H; lia). reflexivity.
Qed.

Lemma map_nth_seq {A : Type} (l : list A) (d : A) :
  map (fun i => nth i l d) (seq 0 (List.length l)) = l.
Proof.
  induction l as [|a l IH]; [reflexivity|].
  cbn [List.length seq map nth]. rewrite <- seq_shift, map_map.
  cbn [nth]. rewrite IH. reflexivity.
Qed.

Lemma transcript_fold (speakers : list string) (l : list (nat * segment))
    (init : list SegmentData.t) :
  fold_left (transcript_body speakers) l init
  = init ++ map (fun ie =>
                   SegmentData.mk (format_timestamp (start (snd ie)))
                                  (format_timestamp (end_ (snd ie)))
                                  (getitem speakers (fst ie) "")
                                  (PyStr.strip (text (snd ie)))
                                  (get (avg_logprob (snd ie)) 0%Q)) l.
Proof.
  revert init. induction l as [|[i seg] l IH]; intro init; cbn [fold_left map].
  - rewrite app_nil_r. reflexivity.
  - rewrite IH. unfold transcript_body at 1. rewrite <- app_assoc. reflexivity.
Qed.

Lemma detect_length (segments : list segment)
    (silence_threshold min_speaker_time : Q) :
  List.length (detect_speaker_changes segments silence_threshold min_speaker_time)
  = List.length segments.
Proof.
  rewrite detect_speakers, length_map, length_seq. reflexivity.
Qed.

Lemma transcript_speakers (segments : list segment) :
  map SegmentData.speaker (transcript_of segments)
  = detect_speaker_changes segments (12 # 10) 4.
Proof.
  unfold transcript_of. rewrite transcript_fold. cbn [app].
  rewrite map_map. cbn [SegmentData.speaker]. unfold enumerate, getitem.
  rewrite (map_combine_fst
             (fun i => nth i (detect_speaker_changes segments (12 # 10) 4) ""))
    by apply length_seq.
  rewrite <- (detect_length segments (12 # 10) 4) at 1.
  apply map_nth_seq.
Qed.

Lemma transcript_texts (segments : list segment) :
  map SegmentData.text (transcript_of segments)
  = map (fun seg => PyStr.strip (text seg)) segments.
Proof.
  unfold transcript_of. rewrite transcript_fold. cbn [app].
  rewrite map_map. cbn [SegmentData.text]. unfold enumerate.
  apply (map_combine_snd (fun seg => PyStr.strip (text seg))).
  apply length_seq.
Qed.

(** X14.  The transcript has one record per segment, in order; every record
    carries the label the attributor gave to its segment (the lookup
    [speakers[i]] is always in range) and the stripped text. *)
Theorem transcript_of_records (segments : list segment) :
  List.length (transcript_of segments) = List.length segments
  /\ map SegmentData.speaker (transcript_of segments)
     = detect_speaker_changes segments (12 # 10) 4
  /\ map SegmentData.text (transcript_of segments)
     = map (fun seg => PyStr.strip (text seg)) segments
  /\ Forall (fun sd => role (SegmentData.speaker sd)) (transcript_of segments).
Proof.
  split.
  { rewrite <- (length_map SegmentData.speaker), transcript_speakers.
    apply detect_length. }
  split; [apply transcript_speakers|].
  split; [apply transcript_texts|].
  apply Forall_forall. intros sd Hsd.
  assert (H : In (SegmentData.speaker sd)
                 (map SegmentData.speaker (transcript_of segments)))
    by (apply in_map; exact Hsd).
  rewrite transcript_speakers, detect_speakers in H.
  apply in_map_iff in H. destruct H as [j [<- Hj]].
  apply in_seq in Hj. apply after_role. lia.
Qed.

(** ** The tally of the summary *)

Lemma dict_total_set (d : list (string * nat)) (k : string) (x : nat) :
  dict_total (dict_set d k (dict_get d k 0 + x)) = dict_total d + x.
Proof.
  unfold dict_total. induction d as [|[k' v] d IH]; cbn [dict_set dict_get].
  - cbn. lia.
  - destruct (String.eqb k' k); simpl; [lia|].
    simpl in IH. rewrite IH. lia.
Qed.

Lemma dict_set_keys {V W : Type} (d : list (string * V)) (d' : list (string * W))
    (k : string) (v : V) (w : W) :
  map fst d = map fst d' ->
  map fst (dict_set d k v) = map fst (dict_set d' k w).
Proof.
  revert d'. induction d as [|[k1 v1] d IH]; intros [|[k2 w2] d'] H;
    try discriminate; [reflexivity|].
  cbn [map fst] in H. injection H as -> H.
  cbn [dict_set]. destruct (String.eqb k2 k); cbn [map fst]; f_equal.
  - exact H.
  - apply IH. exact H.
Qed.

Lemma dict_set_in {V : Type} (d : list (string * V)) (k : string) (v : V)
    (k' : string) :
  In k' (map fst (dict_set d k v)) <-> k' = k \/ In k' (map fst d).
Proof.
  induction d as [|[k1 v1] d IH]; cbn [dict_set].
  - cbn. intuition congruence.
  - destruct (String.eqb_spec k1 k) as [->|N]; cbn [map fst In].
    + intuition congruence.
    + rewrite IH. intuition congruence.
Qed.

Lemma dict_set_nodup {V : Type} (d : list (string * V)) (k : string) (v : V) :
  NoDup (map fst d) -> NoDup (map fst (dict_set d k v)).
Proof.
  induction d as [|[k1 v1] d IH]; intro H; cbn [dict_set].
  - cbn. constructor; [intros []|constructor].
  - cbn [map fst] in H. inversion H as [|? ? Hn Hd]; subst.
    destruct (String.eqb_spec k1 k) as [->|N]; cbn [map fst].
    + constructor; assumption.
    + constructor; [|apply IH; exact Hd].
      rewrite dict_set_in. intros [E|I]; [congruence|contradiction].
Qed.

Lemma tally_fold (T : list SegmentData.t)
    (st : list (string * nat) * list (string * nat)) :
  map fst (fst st) = map fst (snd st) ->
  NoDup (map fst (fst st)) ->
  let r := fold_left tally_body T st in
  dict_total (fst r) = dict_total (fst st) + List.length T
  /\ dict_total (snd r)
     = dict_total (snd st)
       + list_sum (map (fun sd => PyStr.count_words (SegmentData.text sd)) T)
  /\ map fst (fst r) = map fst (snd r)
  /\ NoDup (map fst (fst r))
  /\ (forall k, In k (map fst (fst r))
                <-> In k (map fst (fst st)) \/ In k (map SegmentData.speaker T)).
Proof.
  revert st. induction T as [|sd T IH]; intros [sc swc] K D; cbn [fold_left].
  - cbn. repeat split; try lia; try assumption; intuition.
  - cbn [fst snd] in K, D.
    set (speaker := SegmentData.speaker sd).
    set (words := PyStr.count_words (SegmentData.text sd)).
    assert (E : tally_body (sc, swc) sd
                = (dict_set sc speaker (dict_get sc speaker 0 + 1),
                   dict_set swc speaker (dict_get swc speaker 0 + words)))
      by reflexivity.
    rewrite E.
    destruct (IH (dict_set sc speaker (dict_get sc speaker 0 + 1),
                  dict_set swc speaker (dict_get swc speaker 0 + words)))
      as [H1 [H2 [H3 [H4 H5]]]].
    + apply dict_set_keys. exact K.
    + apply dict_set_nodup. exact D.
    + cbn [fst snd] in H1, H2, H5.
      rewrite dict_total_set in H1. rewrite dict_total_set in H2.
      cbn [fst snd List.length map list_sum].
      split; [rewrite H1; lia|]. split; [rewrite H2; simpl; lia|].
      split; [exact H3|]. split; [exact H4|].
      intro k. rewrite H5, dict_set_in. cbn [In]. fold speaker.
      intuition congruence.
Qed.

(** X15.  The tally of the summary: the turn counts of the speakers add up to
    the number of records and their word counts to the words of all
    records; both dictionaries have the same speakers, each once, and they
    are the speakers that occur in the transcript. *)
Theorem tally_totals (transcript_segments : list SegmentData.t) :
  dict_total (fst (tally transcript_segments))
  = List.length transcript_segments
  /\ dict_total (snd (tally transcript_segments))
     = list_sum (map (fun sd => PyStr.count_words (SegmentData.text sd))
                     transcript_segments)
  /\ map fst (fst (tally transcript_segments))
     = map fst (snd (tally transcript_segments))
  /\ NoDup (map fst (fst (tally transcript_segments)))
  /\ (forall k, In k (map fst (fst (tally transcript_segments)))
                <-> In k (map SegmentData.speaker transcript_segments)).
Proof.
  destruct (tally_fold transcript_segments ([], []) eq_refl (NoDup_nil _))
    as [H1 [H2 [H3 [H4 H5]]]].
  fold (tally transcript_segments) in H1, H2, H3, H4, H5.
  split; [exact H1|]. split; [exact H2|]. split; [exact H3|].
  split; [exact H4|].
  intro k. rewrite H5. cbn. intuition.
Qed.

Lemma roles_at_most_two (l : list string) :
  NoDup l -> Forall role l -> List.length l <= 2.
Proof.
  intros D R.
  apply (NoDup_incl_length (l' := ["INTERVIEWER"; "PARTICIPANT"]) D).
  intros k Hk. rewrite Forall_forall in R. destruct (R k Hk) as [-> | ->];
    cbn; auto.
Qed.

(** X16.  On the transcript of [main] the summary has at most two rows, one per
    role; the turns of the rows add up to the number of segments and their
    words to [total_words] of the statistics, which is counted on the
    unstripped text. *)
Theorem summary_tally_consistent (result : transcription) (m : Metadata.t) :
  compute_metadata result = Ok m ->
  let t := tally (transcript_of (res_segments result)) in
  dict_total (fst t) = Metadata.total_segments m
  /\ dict_total (snd t) = Metadata.total_words m
  /\ List.length (fst t) <= 2
  /\ Forall role (map fst (fst t)).
Proof.
  intros H t.
  destruct (tally_fold (transcript_of (res_segments result)) ([], [])
              eq_refl (NoDup_nil _)) as [H1 [H2 [_ [H4 H5]]]].
  fold (tally (transcript_of (res_segments result))) in H1, H2, H4, H5.
  fold t in H1, H2, H4, H5.
  assert (R : Forall role (map fst (fst t))).
  { apply Forall_forall. intros k Hk. apply H5 in Hk.
    destruct Hk as [[]|Hk].
    rewrite transcript_speakers, detect_speakers in Hk.
    apply in_map_iff in Hk. destruct Hk as [j [<- Hj]].
    apply in_seq in Hj. apply after_role. lia. }
  invert_metadata H. cbn [Metadata.total_segments Metadata.total_words].
  split.
  { rewrite H1.
    change (dict_total (fst (@nil (string * nat), @nil (string * nat))))
      with 0.
    cbn [Nat.add].
    rewrite <- (length_map SegmentData.speaker), transcript_speakers.
    apply detect_length. }
  split.
  { rewrite H2.
    rewrite <- (map_map SegmentData.text PyStr.count_words).
    rewrite transcript_texts, map_map.
    change (dict_total (snd (@nil (string * nat), @nil (string * nat))))
      with 0.
    cbn [Nat.add]. f_equal.
    apply map_ext. intro seg. apply count_words_strip. }
  split; [|exact R].
  rewrite <- (length_map fst). apply roles_at_most_two; assumption.
Qed.

Lemma summary_tally_consistent_witness :
  dict_total (snd (tally (transcript_of (res_segments scenario_D)))) = 3.
Proof.
  assert (H : { m | compute_metadata scenario_D = Ok m })
    by (eexists; vm_compute; reflexivity).
  destruct H as [m H].
  destruct (summary_tally_consistent scenario_D m H) as [_ [E _]].
  rewrite E. injection H as <-. reflexivity.
Defined.

(** ** Reading the formatted duration back *)

Lemma digits_underscores_ok (d : Decimal.uint) (b : bool) :
  underscores_ok b (NilEmpty.string_of_uint d)
  = match d with Decimal.Nil => b | _ => true end.
Proof.
  revert b. induction d as [|d IH|d IH|d IH|d IH|d IH|d IH|d IH|d IH|d IH|d IH];
    intro b; [reflexivity|..];
    cbn; rewrite IH; destruct d; reflexivity.
Qed.

Lemma digits_remove_underscores (d : Decimal.uint) :
  remove_underscores (NilEmpty.string_of_uint d) = NilEmpty.string_of_uint d.
Proof.
  induction d; [reflexivity|..]; cbn; rewrite IHd; reflexivity.
Qed.

Lemma digits_rstrip (d : Decimal.uint) :
  PyStr.rstrip (NilEmpty.string_of_uint d) = NilEmpty.string_of_uint d.
Proof.
  induction d; [reflexivity|..];
    cbn [NilEmpty.string_of_uint];
    rewrite rstrip_nonspace by reflexivity; rewrite IHd; reflexivity.
Qed.

Lemma digits_strip (d : Decimal.uint) :
  PyStr.strip (NilEmpty.string_of_uint d) = NilEmpty.string_of_uint d.
Proof.
  unfold PyStr.strip.
  replace (PyStr.lstrip (NilEmpty.string_of_uint d))
    with (NilEmpty.string_of_uint d) by (destruct d; reflexivity).
  apply digits_rstrip.
Qed.

Lemma int_of_digits_string (d : Decimal.uint) :
  d <> Decimal.Nil ->
  int_of_str (NilEmpty.string_of_uint d) = Ok (Z.of_N (N.of_uint d)).
Proof.
  intro N. unfold int_of_str. rewrite digits_strip.
  assert (E : int_of_digits (NilEmpty.string_of_uint d)
              = Ok (Z.of_N (N.of_uint d))).
  { unfold int_of_digits.
    rewrite digits_underscores_ok, digits_remove_underscores, NilEmpty.usu.
    destruct d; [contradiction|reflexivity..]. }
  destruct d; [contradiction|exact E..].
Qed.

Lemma split_char_nonempty (sep : ascii) (s : string) :
  split_char sep s <> [].
Proof.
  induction s as [|c s IH]; [discriminate|].
  cbn [split_char]. destruct (split_char sep s); [contradiction|].
  destruct (Ascii.eqb c sep); discriminate.
Qed.

Lemma split_digits_colon (d : Decimal.uint) (rest : string) :
  split_char ":" (NilEmpty.string_of_uint d ++ String ":" rest)%string
  = NilEmpty.string_of_uint d :: split_char ":" rest.
Proof.
  induction d; cbn; try (rewrite IHd; reflexivity).
  pose proof (split_char_nonempty ":" rest) as N.
  destruct (split_char ":" rest); [contradiction|reflexivity].
Qed.

Lemma split_digits (d : Decimal.uint) :
  split_char ":" (NilEmpty.string_of_uint d) = [NilEmpty.string_of_uint d].
Proof.
  induction d; cbn; try (rewrite IHd; reflexivity).
  reflexivity.
Qed.

Lemma to_uint_nonnil (n : N) : N.to_uint n <> Decimal.Nil.
Proof.
  destruct n as [|p]; [discriminate|].
  apply DecimalPos.Unsigned.to_uint_nonnil.
Qed.

(** A formatted natural number is a non-empty string of digits that
    denotes the number. *)
Lemma format_02d_digits (k : Z) :
  (0 <= k)%Z ->
  exists d, d <> Decimal.Nil
            /\ PyNum.format_02d k = NilEmpty.string_of_uint d
            /\ Z.of_N (N.of_uint d) = k.
Proof.
  intro Hk. rewrite format_02d_zero_pad2 by exact Hk.
  unfold zero_pad2, decimal.
  pose proof (to_uint_nonnil (Z.to_N k)) as N.
  pose proof (DecimalN.Unsigned.of_to (Z.to_N k)) as R.
  assert (E : NilZero.string_of_uint (N.to_uint (Z.to_N k))
              = NilEmpty.string_of_uint (N.to_uint (Z.to_N k)))
    by (destruct (N.to_uint (Z.to_N k)); [contradiction|reflexivity..]).
  rewrite E.
  destruct (k <? 10)%Z.
  - exists (Decimal.D0 (N.to_uint (Z.to_N k))).
    split; [discriminate|]. split; [reflexivity|].
    change (N.of_uint (Decimal.D0 (N.to_uint (Z.to_N k))))
      with (N.of_uint (N.to_uint (Z.to_N k))).
    rewrite R. apply Z2N.id. exact Hk.
  - exists (N.to_uint (Z.to_N k)).
    split; [exact N|]. split; [reflexivity|].
    rewrite R. apply Z2N.id. exact Hk.
Qed.

(** Two formatted numbers around a colon are read back as they were
    written. *)
Lemma total_minutes_mm_ss (a b : Z) :
  (0 <= a)%Z -> (0 <= b)%Z ->
  total_minutes_of (PyNum.format_02d a ++ ":" ++ PyNum.format_02d b)%string
  = Ok (inject_Z a + inject_Z b / 60)%Q.
Proof.
  intros Ha Hb.
  destruct (format_02d_digits a Ha) as [da [Na [-> Va]]].
  destruct (format_02d_digits b Hb) as [db [Nb [-> Vb]]].
  unfold total_minutes_of. cbn [append].
  rewrite split_digits_colon, split_digits. cbn [getitem nth].
  rewrite !int_of_digits_string by assumption. cbn [bind].
  rewrite Va, Vb. reflexivity.
Qed.

(** With a third number the first two are read all the same. *)
Lemma total_minutes_hh_mm_ss (a b c : Z) :
  (0 <= a)%Z -> (0 <= b)%Z -> (0 <= c)%Z ->
  total_minutes_of (PyNum.format_02d a ++ ":" ++ PyNum.format_02d b
                    ++ ":" ++ PyNum.format_02d c)%string
  = Ok (inject_Z a + inject_Z b / 60)%Q.
Proof.
  intros Ha Hb Hc.
  destruct (format_02d_digits a Ha) as [da [Na [-> Va]]].
  destruct (format_02d_digits b Hb) as [db [Nb [-> Vb]]].
  destruct (format_02d_digits c Hc) as [dc [Nc [-> Vc]]].
  unfold total_minutes_of. cbn [append].
  rewrite !split_digits_colon, split_digits. cbn [getitem nth].
  rewrite !int_of_digits_string by assumption. cbn [bind].
  rewrite Va, Vb. reflexivity.
Qed.

(** What the summary reads back from any formatted duration. *)
Lemma total_minutes_of_duration (s : Q) :
  let n := Qfloor s in
  total_minutes_of (format_duration s)
  = Ok (if (0 <? n / 3600)%Z
        then inject_Z (n / 3600) + inject_Z ((n mod 3600) / 60) / 60
        else inject_Z ((n mod 3600) / 60) + inject_Z (n mod 60) / 60)%Q.
Proof.
  intro n. unfold format_duration.
  assert (I3600 : PyNum.int (PyNum.floordiv s 3600) = (n / 3600)%Z)
    by apply (floor_floordiv s 3600).
  assert (K : PyNum.int (PyNum.floordiv (PyNum.mod_ s 3600) 60)
              = ((n mod 3600) / 60)%Z).
  { rewrite (floor_floordiv _ 60). f_equal. apply (floor_mod s 3600). }
  assert (J60 : PyNum.int (PyNum.mod_ s 60) = (n mod 60)%Z)
    by apply (int_mod s 60).
  rewrite I3600, K, J60, Z.gtb_ltb.
  assert (P2 : (0 <= n mod 60)%Z) by (apply Z.mod_pos_bound; lia).
  assert (P4 : (0 <= (n mod 3600) / 60)%Z).
  { apply Z.div_pos; [apply Z.mod_pos_bound|]; lia. }
  destruct (Z.ltb_spec 0 (n / 3600)) as [Hh|Hh].
  - apply total_minutes_hh_mm_ss; lia.
  - apply total_minutes_mm_ss; assumption.
Qed.

(** X17.  The summary reads its minutes back from the formatted duration.  For
    a recording of less than an hour they are the whole seconds divided by
    60; from one hour on the hours are read as minutes and the minutes as
    seconds, which gives the whole minutes divided by 60. *)
Theorem total_minutes_of_format_duration (s : Q) :
  (0 <= s)%Q ->
  exists q,
    total_minutes_of (format_duration s) = Ok q
    /\ (q == if (Qfloor s <? 3600)%Z
             then inject_Z (Qfloor s) / 60
             else inject_Z (Qfloor s / 60) / 60)%Q.
Proof.
  intro Hs.
  assert (Hn : (0 <= Qfloor s)%Z).
  { rewrite <- (Qfloor_Z 0). apply Qfloor_resp_le. exact Hs. }
  pose proof (total_minutes_of_duration s) as T. cbv zeta in T.
  eexists. split; [exact T|].
  set (n := Qfloor s) in *.
  destruct (Z.ltb_spec 0 (n / 3600)) as [Hh|Hh];
    destruct (Z.ltb_spec n 3600) as [Hlt|Hge].
  - exfalso. rewrite Z.div_small in Hh by lia. lia.
  - assert (E : (n / 60 = 60 * (n / 3600) + (n mod 3600) / 60)%Z).
    { Z.div_mod_to_equations. lia. }
    rewrite E, inject_Z_plus, inject_Z_mult. field.
  - rewrite (Z.mod_small n 3600) by lia.
    pose proof (Z.div_mod n 60 ltac:(lia)) as D.
    rewrite D at 3. rewrite inject_Z_plus, inject_Z_mult. field.
  - exfalso. assert (1 <= n / 3600)%Z; [|lia].
    apply Z.div_le_lower_bound; lia.
Qed.

Lemma total_minutes_of_format_duration_witness :
  exists q, total_minutes_of (format_duration (3725 # 1)) = Ok q
            /\ (q == 62 # 60)%Q.
Proof.
  destruct (total_minutes_of_format_duration (3725 # 1)) as [q [H E]].
  - unfold Qle. simpl. lia.
  - exists q. split; [exact H|]. rewrite E. reflexivity.
Defined.

(** ** The summary *)

Lemma speech_rate_ok (d : Q) (w : nat) :
  exists sr, speech_rate_of (format_duration d) w = Ok sr.
Proof.
  unfold speech_rate_of.
  pose proof (total_minutes_of_duration d) as T. cbv zeta in T.
  rewrite T. cbn [bind].
  match goal with
  | |- exists sr, (if PyNum.ltb 0 ?tm then _ else _) = Ok sr =>
      destruct (PyNum.ltb 0 tm) eqn:E; [|eexists; reflexivity];
      apply ltb_lt in E; rewrite truediv_nonzero;
      [eexists; reflexivity|];
      intro H; rewrite H in E; exact (Qlt_irrefl 0 E)
  end.
Qed.

Lemma of_nat_nonzero (w : nat) : w <> 0 -> ~ (of_nat w == 0)%Q.
Proof.
  intros N H. unfold of_nat, Qeq in H. simpl in H. lia.
Qed.

Lemma summary_rows_ok (n : Q) (w : nat) (swc items : list (string * nat)) :
  ~ (n == 0)%Q -> w <> 0 ->
  exists rows, summary_rows n w swc items = Ok rows.
Proof.
  intros Hn Hw. induction items as [|[speaker count] rest [rows IH]].
  - eexists. reflexivity.
  - cbn [summary_rows].
    rewrite (truediv_nonzero _ n) by exact Hn. cbn [bind].
    rewrite (truediv_nonzero _ (of_nat w)) by (apply of_nat_nonzero; exact Hw).
    cbn [bind]. rewrite IH. cbn [bind]. eexists. reflexivity.
Qed.

Lemma tally_nonempty (T : list SegmentData.t) :
  T <> [] -> fst (tally T) <> [].
Proof.
  intros N E. destruct T as [|sd T]; [contradiction|].
  destruct (tally_fold (sd :: T) ([], []) eq_refl (NoDup_nil _))
    as [_ [_ [_ [_ H5]]]].
  fold (tally (sd :: T)) in H5.
  assert (I : In (SegmentData.speaker sd) (map fst (fst (tally (sd :: T)))))
    by (apply H5; right; left; reflexivity).
  rewrite E in I. exact I.
Qed.

(** X18.  On a transcript that is not empty the summary of [main] fails exactly
    when [total_words] is 0: the word percentage of the first speaker
    divides by it.  Reading the duration back and the speech rate never
    fail. *)
Theorem summary_raises_iff (d : Q) (total_words : nat)
    (transcript_segments : list SegmentData.t) :
  transcript_segments <> [] ->
  (summary (format_duration d) total_words transcript_segments
   = Raise ZeroDivisionError
   <-> total_words = 0).
Proof.
  intro N.
  destruct (speech_rate_ok d total_words) as [sr Hsr].
  pose proof (tally_nonempty transcript_segments N) as Ht.
  assert (L : ~ (PyNum.len transcript_segments == 0)%Q).
  { apply len_nonzero. destruct transcript_segments; [contradiction|reflexivity]. }
  unfold summary. rewrite Hsr. cbn [bind].
  destruct (tally transcript_segments) as [sc swc]. cbn [fst] in Ht.
  split.
  - intro H. destruct (Nat.eq_dec total_words 0) as [E|E]; [exact E|].
    destruct (summary_rows_ok (PyNum.len transcript_segments) total_words
                swc sc L E) as [rows R].
    rewrite R in H. discriminate H.
  - intros ->. destruct sc as [|[speaker count] rest]; [contradiction|].
    cbn [summary_rows].
    rewrite (truediv_nonzero _ (PyNum.len transcript_segments)) by exact L.
    reflexivity.
Qed.

Lemma summary_raises_iff_witness :
  summary (format_duration 7) 0 (transcript_of scenario_B)
  = Raise ZeroDivisionError.
Proof.
  apply (summary_raises_iff 7 0 (transcript_of scenario_B)).
  - discriminate.
  - reflexivity.
Defined.

(** ** The printed turns *)

Lemma turn_numbers_app (l1 l2 : list line) :
  turn_numbers (l1 ++ l2) = turn_numbers l1 ++ turn_numbers l2.
Proof.
  induction l1 as [|[|n sd mt] l1 IH]; cbn [app turn_numbers];
    rewrite ?IH; reflexivity.
Qed.

Lemma blank_lines_app (l1 l2 : list line) :
  blank_lines (l1 ++ l2) = blank_lines l1 + blank_lines l2.
Proof.
  induction l1 as [|[|n sd mt] l1 IH]; cbn [app blank_lines Nat.add];
    rewrite ?IH; reflexivity.
Qed.

Lemma speaker_changes_cons (a b : SegmentData.t) (rest : list SegmentData.t) :
  speaker_changes (a :: b :: rest)
  = (if String.eqb (SegmentData.speaker a) (SegmentData.speaker b)
     then 0 else 1) + speaker_changes (b :: rest).
Proof. reflexivity. Qed.

Lemma printer_fold (rest : list SegmentData.t) (a : SegmentData.t)
    (st : printer) :
  pr_current_speaker st = Some (SegmentData.speaker a) ->
  let r := fold_left printer_body rest st in
  turn_numbers (printed r)
  = turn_numbers (printed st)
    ++ map (fun i => turn_number st
                     + speaker_changes (firstn (S (S i)) (a :: rest)))
           (seq 0 (List.length rest))
  /\ blank_lines (printed r)
     = blank_lines (printed st) + speaker_changes (a :: rest).
Proof.
  revert a st. induction rest as [|b rest IH]; intros a st Hc.
  - cbn. rewrite app_nil_r. split; [reflexivity|lia].
  - cbn [fold_left List.length].
    set (delta := if String.eqb (SegmentData.speaker a) (SegmentData.speaker b)
                  then 0 else 1).
    assert (S1 : pr_current_speaker (printer_body st b)
                 = Some (SegmentData.speaker b)
                 /\ turn_number (printer_body st b) = turn_number st + delta
                 /\ turn_numbers (printed (printer_body st b))
                    = turn_numbers (printed st) ++ [turn_number st + delta]
                 /\ blank_lines (printed (printer_body st b))
                    = blank_lines (printed st) + delta).
    { unfold printer_body, differs, delta. rewrite Hc.
      destruct (String.eqb_spec (SegmentData.speaker a) (SegmentData.speaker b))
        as [E|E]; cbn [negb printed pr_current_speaker turn_number].
      - rewrite turn_numbers_app, blank_lines_app, Hc, E. cbn.
        rewrite !Nat.add_0_r. repeat split; reflexivity.
      - rewrite !turn_numbers_app, !blank_lines_app. cbn.
        rewrite !app_nil_r, !Nat.add_0_r. repeat split; reflexivity. }
    destruct S1 as [C1 [N1 [T1 B1]]].
    destruct (IH b (printer_body st b) C1) as [HT HB].
    split.
    + rewrite HT, T1, N1, <- app_assoc. f_equal.
      change (seq 0 (S (List.length rest)))
        with (0 :: seq 1 (List.length rest)).
      cbn [map app]. f_equal.
      * cbn [firstn]. rewrite speaker_changes_cons. fold delta. cbn. lia.
      * rewrite <- (seq_shift (List.length rest) 0), map_map.
        apply map_ext. intro i.
        change (firstn (S (S (S i))) (a :: b :: rest))
          with (a :: b :: firstn (S i) rest).
        change (firstn (S (S i)) (b :: rest)) with (b :: firstn (S i) rest).
        rewrite speaker_changes_cons. fold delta. lia.
    + rewrite HB, B1, speaker_changes_cons. fold delta. lia.
Qed.

Lemma print_turns_numbers_aux (transcript_segments : list SegmentData.t) :
  turn_numbers (print_turns transcript_segments)
  = map (fun i => 1 + speaker_changes (firstn (S i) transcript_segments))
        (seq 0 (List.length transcript_segments))
  /\ blank_lines (print_turns transcript_segments)
     = speaker_changes transcript_segments.
Proof.
  destruct transcript_segments as [|a rest]; [split; reflexivity|].
  unfold print_turns. cbn [fold_left].
  destruct (printer_fold rest a (printer_body (mkPrinter [] None 0) a) eq_refl)
    as [HT HB].
  split.
  - rewrite HT. cbn [List.length].
    change (seq 0 (S (List.length rest)))
      with (0 :: seq 1 (List.length rest)).
    cbn [map]. rewrite <- (seq_shift (List.length rest) 0), map_map.
    reflexivity.
  - rewrite HB. reflexivity.
Qed.

(** X19.  Every record is printed on one line; its turn number is one more than
    the number of speaker changes among the records up to it, and an empty
    line is printed at every speaker change. *)
Theorem print_turns_numbers (transcript_segments : list SegmentData.t) :
  turn_numbers (print_turns transcript_segments)
  = map (fun i => 1 + speaker_changes (firstn (S i) transcript_segments))
        (seq 0 (List.length transcript_segments))
  /\ blank_lines (print_turns transcript_segments)
     = speaker_changes transcript_segments.
Proof.
  apply print_turns_numbers_aux.
Qed.

Lemma flips_upto_sum (segments : list segment)
    (silence_threshold min_speaker_time : Q) (k : nat) :
  flips_upto segments silence_threshold min_speaker_time k
  = list_sum
      (map (fun i => if flips_at segments silence_threshold min_speaker_time i
                     then 1 else 0)
           (seq 1 k)).
Proof.
  induction k as [|k IH]; [reflexivity|].
  rewrite seq_S, map_app, list_sum_app. cbn [flips_upto].
  rewrite IH. cbn. lia.
Qed.

Lemma speaker_changes_sum (T : list SegmentData.t) :
  speaker_changes T
  = list_sum
      (map (fun i =>
              if String.eqb (nth i (map SegmentData.speaker T) "")
                            (nth (i - 1) (map SegmentData.speaker T) "")
              then 0 else 1)
           (seq 1 (List.length T - 1))).
Proof.
  induction T as [|a T IH]; [reflexivity|].
  destruct T as [|b rest]; [reflexivity|].
  rewrite speaker_changes_cons, IH.
  change (List.length (a :: b :: rest) - 1) with (S (List.length rest)).
  change (List.length (b :: rest) - 1) with (List.length rest - 0).
  rewrite Nat.sub_0_r.
  set (f := fun i =>
              if String.eqb
                   (nth i (map SegmentData.speaker (a :: b :: rest)) "")
                   (nth (i - 1) (map SegmentData.speaker (a :: b :: rest)) "")
              then 0 else 1).
  set (g := fun i =>
              if String.eqb
                   (nth i (map SegmentData.speaker (b :: rest)) "")
                   (nth (i - 1) (map SegmentData.speaker (b :: rest)) "")
              then 0 else 1).
  change (seq 1 (S (List.length rest)))
    with (1 :: seq 2 (List.length rest)).
  change (list_sum (map f (1 :: seq 2 (List.length rest))))
    with (f 1 + list_sum (map f (seq 2 (List.length rest)))).
  assert (F1 : f 1 = if String.eqb (SegmentData.speaker a)
                                   (SegmentData.speaker b)
                     then 0 else 1).
  { unfold f. cbn [map nth Nat.sub]. rewrite String.eqb_sym. reflexivity. }
  rewrite F1. f_equal. f_equal.
  rewrite <- (seq_shift (List.length rest) 1), map_map.
  apply map_ext_in. intros i Hi. apply in_seq in Hi.
  unfold f, g. destruct i as [|i]; [lia|].
  replace (S (S i) - 1) with (S i) by lia.
  replace (S i - 1) with i by lia.
  reflexivity.
Qed.

(** X20.  The printed transcript of [main] has an empty line for every speaker
    change that the attributor made, and no other. *)
Theorem blank_lines_are_flips (segments : list segment) :
  blank_lines (print_turns (transcript_of segments))
  = flips_upto segments (12 # 10) 4 (List.length segments - 1).
Proof.
  destruct (print_turns_numbers_aux (transcript_of segments)) as [_ ->].
  rewrite speaker_changes_sum, flips_upto_sum, transcript_speakers.
  rewrite <- (length_map SegmentData.speaker), transcript_speakers.
  rewrite detect_length.
  f_equal. apply map_ext. intro i.
  unfold flips_at, label.
  destruct (String.eqb _ _); reflexivity.
Qed.

(** ** The width of the formatted times *)

Lemma string_length_app (s1 s2 : string) :
  String.length (s1 ++ s2)%string = String.length s1 + String.length s2.
Proof.
  induction s1 as [|c s1 IH]; [reflexivity|].
  cbn [append String.length]. rewrite IH. reflexivity.
Qed.

Lemma zero_pad2_length (k : Z) :
  (0 <= k < 100)%Z -> String.length (zero_pad2 k) = 2.
Proof.
  intro H. destruct k as [|p|p]; [reflexivity| |lia].
  do 7 (try (destruct p as [p|p|]; try reflexivity; try (exfalso; lia))).
Qed.

(** The fields of a formatted duration, for any number of seconds. *)
Lemma format_duration_fields (s : Q) :
  let n := Qfloor s in
  format_duration s
  = (if (0 <? n / 3600)%Z
     then PyNum.format_02d (n / 3600) ++ ":"
          ++ PyNum.format_02d ((n mod 3600) / 60) ++ ":"
          ++ PyNum.format_02d (n mod 60)
     else PyNum.format_02d ((n mod 3600) / 60) ++ ":"
          ++ PyNum.format_02d (n mod 60))%string.
Proof.
  intro n. unfold format_duration.
  assert (I3600 : PyNum.int (PyNum.floordiv s 3600) = (n / 3600)%Z)
    by apply (floor_floordiv s 3600).
  assert (K : PyNum.int (PyNum.floordiv (PyNum.mod_ s 3600) 60)
              = ((n mod 3600) / 60)%Z).
  { rewrite (floor_floordiv _ 60). f_equal. apply (floor_mod s 3600). }
  assert (J60 : PyNum.int (PyNum.mod_ s 60) = (n mod 60)%Z)
    by apply (int_mod s 60).
  rewrite I3600, K, J60, Z.gtb_ltb. reflexivity.
Qed.

(** X21.  A timestamp below 100 minutes has exactly the five characters of
    "MM:SS". *)
Theorem format_timestamp_width (s : Q) :
  (0 <= s)%Q -> (s < 6000)%Q ->
  String.length (format_timestamp s) = 5.
Proof.
  intros H0 H1.
  assert (Hn : (0 <= Qfloor s < 6000)%Z).
  { split.
    - rewrite <- (Qfloor_Z 0). apply Qfloor_resp_le. exact H0.
    - assert (L : (inject_Z (Qfloor s) < inject_Z 6000)%Q)
        by (apply Qle_lt_trans with s; [apply Qfloor_le|exact H1]).
      rewrite <- Zlt_Qlt in L. exact L. }
  unfold format_timestamp.
  assert (I60 : PyNum.int (PyNum.floordiv s 60) = (Qfloor s / 60)%Z)
    by apply (floor_floordiv s 60).
  assert (J60 : PyNum.int (PyNum.mod_ s 60) = (Qfloor s mod 60)%Z)
    by apply (int_mod s 60).
  rewrite I60, J60.
  assert (A : (0 <= Qfloor s / 60 < 100)%Z)
    by (split; [apply Z.div_pos; lia | apply Z.div_lt_upper_bound; lia]).
  assert (B : (0 <= Qfloor s mod 60 < 100)%Z)
    by (pose proof (Z.mod_pos_bound (Qfloor s) 60); lia).
  rewrite !format_02d_zero_pad2 by lia.
  rewrite !string_length_app, !zero_pad2_length by assumption.
  reflexivity.
Qed.

Lemma format_timestamp_width_witness :
  String.length (format_timestamp (725 # 10)) = 5.
Proof.
  apply (format_timestamp_width (725 # 10)); unfold Qle, Qlt; simpl; lia.
Defined.

(** X22.  A duration below one hour has the five characters of "MM:SS", a
    duration from one hour up to 100 hours the eight characters of
    "HH:MM:SS". *)
Theorem format_duration_width (s : Q) :
  (0 <= s)%Q -> (s < 360000)%Q ->
  String.length (format_duration s) = if (Qfloor s <? 3600)%Z then 5 else 8.
Proof.
  intros H0 H1.
  assert (Hn : (0 <= Qfloor s < 360000)%Z).
  { split.
    - rewrite <- (Qfloor_Z 0). apply Qfloor_resp_le. exact H0.
    - assert (L : (inject_Z (Qfloor s) < inject_Z 360000)%Q)
        by (apply Qle_lt_trans with s; [apply Qfloor_le|exact H1]).
      rewrite <- Zlt_Qlt in L. exact L. }
  pose proof (format_duration_fields s) as F. cbv zeta in F. rewrite F.
  set (n := Qfloor s) in *.
  assert (A : (0 <= n / 3600 < 100)%Z)
    by (split; [apply Z.div_pos; lia | apply Z.div_lt_upper_bound; lia]).
  assert (B : (0 <= (n mod 3600) / 60 < 100)%Z).
  { pose proof (Z.mod_pos_bound n 3600 ltac:(lia)).
    split; [apply Z.div_pos; lia | apply Z.div_lt_upper_bound; lia]. }
  assert (C : (0 <= n mod 60 < 100)%Z)
    by (pose proof (Z.mod_pos_bound n 60); lia).
  rewrite !format_02d_zero_pad2 by lia.
  destruct (Z.ltb_spec 0 (n / 3600)) as [Hh|Hh];
    destruct (Z.ltb_spec n 3600) as [Hlt|Hge].
  - exfalso. rewrite Z.div_small in Hh by lia. lia.
  - rewrite !string_length_app, !zero_pad2_length by assumption. reflexivity.
  - rewrite !string_length_app, !zero_pad2_length by assumption. reflexivity.
  - exfalso. assert (1 <= n / 3600)%Z; [|lia].
    apply Z.div_le_lower_bound; lia.
Qed.

Lemma format_duration_width_witness :
  String.length (format_duration (36615 # 10)) = 8.
Proof.
  apply (format_duration_width (36615 # 10)); unfold Qle, Qlt; simpl; lia.
Defined.

(** ** The order of the segment lengths *)









